(** * misl: the Watson and Azure speech adapters

    A shallow embedding of [src/text_to_speech.py] and
    [src/ibm_text_analysis.py].  Both files are glue over vendor SDKs, so
    the embedding keeps the glue as it is written and takes the vendors
    (decouple, the IBM SDK, requests, the Azure speech SDK) as an interface
    whose calls are recorded in an effect log. *)

From Stdlib Require Import String Ascii ZArith QArith List Sorted Permutation Lia Bool.
From Stdlib Require Import DecimalString Floats.SpecFloat.
From stdpp Require Import base option gmap strings list.

Import ListNotations.
Local Open Scope string_scope.
Local Open Scope Z_scope.
Local Open Scope list_scope.

(** ** Python values the two modules handle *)

(** Python [str].  The only characters the code inspects are the space and
    the period, both ASCII, so a byte string splits and searches exactly as
    the code-point string does. *)

(** [needle in s] on two [str]: true iff [needle] occurs as a substring. *)
Fixpoint str_in (needle s : string) : bool :=
  if String.prefix needle s then true
  else match s with
       | EmptyString => false
       | String _ s' => str_in needle s'
       end.

(** [s.split(sep)] for a one-character separator: cuts at every occurrence,
    keeps empty pieces, and never returns the empty list. *)
Fixpoint str_split (sep : ascii) (s : string) : list string :=
  match s with
  | EmptyString => [EmptyString]
  | String c s' =>
      if Ascii.eqb c sep then EmptyString :: str_split sep s'
      else match str_split sep s' with
           | [] => [String c EmptyString]
           | piece :: pieces => String c piece :: pieces
           end
  end.

(** [sep.join(pieces)], the inverse of [str_split]. *)
Fixpoint str_join (sep : string) (pieces : list string) : string :=
  match pieces with
  | [] => EmptyString
  | [p] => p
  | p :: ps => p +:+ sep +:+ str_join sep ps
  end.

(** [sorted(l, key=key)]: Python's sort is stable and compares keys with
    [<] only.  Insertion from the right is the stable sort written out: an
    element goes in front of the first one whose key is not smaller. *)
Section Sorted.
Context {A : Type} (key : A -> Z).

Fixpoint insert_by_key (x : A) (l : list A) : list A :=
  match l with
  | [] => [x]
  | y :: l' => if (key y <? key x)%Z then y :: insert_by_key x l'
               else x :: y :: l'
  end.

Fixpoint sorted (l : list A) : list A :=
  match l with
  | [] => []
  | x :: l' => insert_by_key x (sorted l')
  end.
End Sorted.

(** The result of [response.json()] and of the SDK's [get_result()]:
    a JSON document as Python data, [JNull] being [None].  An [int] is
    its value; a [float] is given by the text Python writes for it (its
    [repr], or [NaN], [Infinity], [-Infinity]); a [dict] is its items in
    insertion order. *)
#[warnings="-register-all"]
Inductive json : Type :=
| JNull
| JBool (b : bool)
| JInt (z : Z)
| JFloat (repr : string)
| JString (s : string)
| JArray (items : list json)
| JObject (members : list (string * json)).

(** *** [json.dumps(obj, indent=2)] *)

Definition double_quote : string := String "034"%char EmptyString.
Definition backslash : string := String "092"%char EmptyString.
Definition line_feed : string := String "010"%char EmptyString.

(** The code points of a [str] held as its UTF-8 bytes. *)
Fixpoint code_points (s : string) : list N :=
  match s with
  | EmptyString => []
  | String b0 s1 =>
      let n0 := N_of_ascii b0 in
      if (n0 <? 128)%N then n0 :: code_points s1
      else
        match s1 with
        | String b1 s2 =>
            let n1 := N.land (N_of_ascii b1) 63 in
            if (n0 <? 224)%N then
              N.lor (N.shiftl (N.land n0 31) 6) n1 :: code_points s2
            else
              match s2 with
              | String b2 s3 =>
                  let n2 := N.land (N_of_ascii b2) 63 in
                  if (n0 <? 240)%N then
                    N.lor (N.shiftl (N.land n0 15) 12) (N.lor (N.shiftl n1 6) n2)
                      :: code_points s3
                  else
                    match s3 with
                    | String b3 s4 =>
                        let n3 := N.land (N_of_ascii b3) 63 in
                        N.lor (N.shiftl (N.land n0 7) 18)
                              (N.lor (N.shiftl n1 12) (N.lor (N.shiftl n2 6) n3))
                          :: code_points s4
                    | EmptyString => [n0; N_of_ascii b1; N_of_ascii b2]
                    end
              | EmptyString => [n0; N_of_ascii b1]
              end
        | EmptyString => [n0]
        end
  end.

Definition hex_digit (n : N) : ascii :=
  match String.get (N.to_nat n) "0123456789abcdef" with
  | Some c => c
  | None => "0"%char
  end.

(** [format(n, '04x')] for [n] below 65536. *)
Definition hex4 (n : N) : string :=
  String (hex_digit (N.land (N.shiftr n 12) 15))
    (String (hex_digit (N.land (N.shiftr n 8) 15))
       (String (hex_digit (N.land (N.shiftr n 4) 15))
          (String (hex_digit (N.land n 15)) EmptyString))).

(** One code point inside a JSON string, with [ensure_ascii] on: the
    quote and the backslash get a backslash, five control characters
    their letter, printable ASCII stays, everything else is written as
    [\uXXXX], above the basic plane as a surrogate pair. *)
Definition escape_code_point (n : N) : string :=
  if (n =? 34)%N then backslash +:+ double_quote
  else if (n =? 92)%N then backslash +:+ backslash
  else if (n =? 8)%N then backslash +:+ "b"
  else if (n =? 12)%N then backslash +:+ "f"
  else if (n =? 10)%N then backslash +:+ "n"
  else if (n =? 13)%N then backslash +:+ "r"
  else if (n =? 9)%N then backslash +:+ "t"
  else if ((32 <=? n) && (n <=? 126))%N then String (ascii_of_N n) EmptyString
  else if (n <? 65536)%N then backslash +:+ "u" +:+ hex4 n
  else
    let m := (n - 65536)%N in
    backslash +:+ "u" +:+ hex4 (N.lor 55296 (N.land (N.shiftr m 10) 1023))
    +:+ backslash +:+ "u" +:+ hex4 (N.lor 56320 (N.land m 1023)).

(** A [str] as a JSON string. *)
Definition encode_str (s : string) : string :=
  double_quote
  +:+ fold_right (fun n acc => escape_code_point n +:+ acc) EmptyString (code_points s)
  +:+ double_quote.

(** [repr] of an [int]. *)
Definition repr_int (z : Z) : string := NilZero.string_of_int (Z.to_int z).

(** A new line and the indentation of a nesting level, two spaces each. *)
Fixpoint newline_indent (level : nat) : string :=
  match level with
  | O => line_feed
  | Datatypes.S l => newline_indent l +:+ "  "
  end.

(** [sep.join(pieces)] for pieces already in hand. *)
Fixpoint join_with (sep : string) (pieces : list string) : string :=
  match pieces with
  | [] => EmptyString
  | [p] => p
  | p :: ps => p +:+ sep +:+ join_with sep ps
  end.

(** The encoder at a nesting level: empty containers on one line, others
    with one item per line, [,] between items and [: ] after a key. *)
Fixpoint dumps_at (level : nat) (j : json) {struct j} : string :=
  match j with
  | JNull => "null"
  | JBool true => "true"
  | JBool false => "false"
  | JInt z => repr_int z
  | JFloat repr => repr
  | JString s => encode_str s
  | JArray [] => "[]"
  | JArray items =>
      "[" +:+ newline_indent (Datatypes.S level)
      +:+ join_with ("," +:+ newline_indent (Datatypes.S level))
                    (map (dumps_at (Datatypes.S level)) items)
      +:+ newline_indent level +:+ "]"
  | JObject [] => "{}"
  | JObject members =>
      "{" +:+ newline_indent (Datatypes.S level)
      +:+ join_with ("," +:+ newline_indent (Datatypes.S level))
                    (map (fun kv => encode_str (fst kv) +:+ ": "
                                    +:+ dumps_at (Datatypes.S level) (snd kv))
                         members)
      +:+ newline_indent level +:+ "}"
  end.

Definition json_dumps_indent2 (j : json) : string := dumps_at 0 j.

(** *** Python floats *)

(** A Python [float] is a binary64 number. *)
Definition pyfloat : Type := spec_float.

Definition float_of_int (z : Z) : pyfloat :=
  match z with
  | Z0 => S754_zero false
  | Zpos p => S754_finite false p 0
  | Zneg p => S754_finite true p 0
  end.

(** [a / b] on two [int]s, [b] not zero: the quotient rounded once, to
    the nearest double, ties to even.  Where the quotient is beyond the
    doubles Python raises [OverflowError] and this function has the
    infinity; with the divisor 10000 that takes a dividend past 10^300,
    and the offsets the SDK hands over are C [uint64] values. *)
Definition int_truediv (a b : Z) : pyfloat := SFdiv 53 1024 (float_of_int a) (float_of_int b).

(** The number a finite double stands for. *)
Definition float_value (f : pyfloat) : Q :=
  match f with
  | S754_finite s m e =>
      let mag := if (0 <=? e)%Z then inject_Z (Zpos m * 2 ^ e)
                 else Zpos m # Pos.pow 2 (Z.to_pos (- e)) in
      if s then Qopp mag else mag
  | _ => 0%Q
  end.

(** [datetime.timedelta], as a whole number of microseconds. *)
Record timedelta : Type := { total_microseconds : Z }.

(** ** Exceptions and the effect log *)

Inductive exn : Type :=
| NameError (name : string)
| TypeError (what : string)
| UndefinedValueError (key : string)
| ValueError (what : string)
| OSError (path : string)
| VendorError (what : string).

Inductive outcome (A : Type) : Type :=
| Ret (a : A)
| Raise (e : exn).
Arguments Ret {A} a.
Arguments Raise {A} e.

(** *** Vendor data: IBM *)

Record BearerTokenAuthenticator : Type := { bearer_token : string }.

Record ConceptsOptions : Type := { limit : option Z }.
Record EmotionOptions : Type :=
  { emotion_document : option bool; emotion_targets : option (list string) }.
Record SemanticRolesOptions : Type := { semantic_roles_limit : option Z }.
Record SentimentOptions : Type :=
  { document : option bool; targets : option (list string) }.
Record ClassificationsOptions : Type := { model : option string }.

(** [Features(...)]: every keyword the caller leaves out is [None]. *)
Record Features : Type := {
  concepts : option ConceptsOptions;
  emotion : option EmotionOptions;
  semantic_roles : option SemanticRolesOptions;
  sentiment : option SentimentOptions;
  classifications : option ClassificationsOptions
}.

Definition no_features : Features :=
  {| concepts := None; emotion := None; semantic_roles := None;
     sentiment := None; classifications := None |}.

Record NaturalLanguageUnderstandingV1 : Type := {
  version : string;
  nlu_authenticator : option BearerTokenAuthenticator;
  nlu_service_url : option string
}.

Record TextToSpeechV1 : Type := {
  tts_authenticator : option BearerTokenAuthenticator;
  tts_service_url : option string
}.

(** The keyword arguments of one [analyze] call. *)
Record analyze_request : Type := {
  text : string;
  features : Features;
  language : option string
}.

(** What [requests.post] hands back: the status and what [.json()] gives. *)
Record response : Type := {
  status_code : Z;
  response_json : outcome json
}.

(** *** Vendor data: Azure *)

Inductive SpeechSynthesisOutputFormat : Type :=
| Riff16Khz16BitMonoPcm
| Audio16Khz32KBitRateMonoMp3
| Audio24Khz48KBitRateMonoMp3
| Ogg16Khz16BitMonoOpus.

Inductive PropertyId : Type :=
| SpeechServiceResponse_RequestSentenceBoundary
| SpeechServiceResponse_RequestWordBoundary.

Record SpeechConfig : Type := {
  subscription : string;
  region : string;
  speech_synthesis_voice_name : option string;
  speech_synthesis_output_format : option SpeechSynthesisOutputFormat;
  properties : list (PropertyId * string)
}.

Record AudioOutputConfig : Type := { filename : string }.

(** What [speak_ssml] returns: why the synthesis ended and the audio it
    produced.  With a file as audio output the SDK writes that audio to
    the file; a canceled synthesis has no audio and leaves the file
    empty. *)
Inductive ResultReason : Type :=
| SynthesizingAudioCompleted
| Canceled.

Record SpeechSynthesisResult : Type := {
  reason : ResultReason;
  audio_data : string
}.

(** [SpeechSynthesisWordBoundaryEventArgs] as the SDK declares it:
    [audio_offset] is an [int] of ticks of 100 nanoseconds, read from a
    C [uint64]; [duration] a [timedelta], the other three as named. *)
Record WordBoundaryEventArgs : Type := {
  evt_audio_offset : Z;
  evt_duration : timedelta;
  evt_text : string;
  evt_text_offset : Z;
  evt_word_length : Z
}.

(** One observable call into a vendor, with what it returned where the
    code depends on it. *)
Inductive event : Type :=
| EvConfig (key : string)
| EvGetToken (apikey : string) (got : outcome string)
| EvAnalyze (service : NaturalLanguageUnderstandingV1) (req : analyze_request)
| EvOpen (path mode : string)
| EvPost (url : string) (headers : list (string * string)) (file_field : string)
         (got : outcome response)
| EvSpeechConfig (subscription_arg region_arg : string)
| EvAudioOutputConfig (filename_arg : string)
| EvSpeechSynthesizer (speech_config : SpeechConfig) (audio_config : AudioOutputConfig)
| EvSpeakSsml (speech_config : SpeechConfig) (audio_config : AudioOutputConfig)
              (ssml : string) (fired : list WordBoundaryEventArgs)
              (got : outcome SpeechSynthesisResult).

(** The vendors, over a world [W] they may change. *)
Class Vendor (W : Type) : Type := {
  (** decouple's store: a missing key raises [UndefinedValueError]. *)
  decouple_config : string -> W -> outcome string;
  (** [IAMTokenManager(apikey=k).get_token()] on a new manager. *)
  iam_get_token : string -> W -> outcome string * W;
  (** [service.analyze(...).get_result()]. *)
  nlu_analyze : NaturalLanguageUnderstandingV1 -> analyze_request -> W -> outcome json * W;
  (** [open(path, 'rb')]: the handle is the file's contents. *)
  open_rb : string -> W -> outcome string * W;
  (** [requests.post(url, headers=..., files={'file': f})]. *)
  requests_post : string -> list (string * string) -> string -> W -> outcome response * W;
  (** [json.dumps(obj, indent=2)]: the standard library's; the concrete
      vendors below take [json_dumps_indent2] for it. *)
  json_dumps : json -> string;
  (** The constructors of the speech SDK validate their arguments. *)
  new_SpeechConfig : string -> string -> W -> outcome unit;
  new_AudioOutputConfig : string -> W -> outcome unit;
  new_SpeechSynthesizer : SpeechConfig -> AudioOutputConfig -> W -> outcome unit * W;
  (** [speak_ssml]: the word-boundary events it fires, in order, and
      the result it returns, or what it raises. *)
  azure_speak_ssml : SpeechConfig -> AudioOutputConfig -> string -> W ->
                     list WordBoundaryEventArgs * outcome SpeechSynthesisResult * W
}.

(** ** The monad: state, exceptions and the log of one run *)

Definition M (S A : Type) : Type := S -> outcome A * S * list event.

Definition ret {S A} (a : A) : M S A := fun s => (Ret a, s, []).

Definition raise {S A} (e : exn) : M S A := fun s => (Raise e, s, []).

Definition bind {S A B} (m : M S A) (k : A -> M S B) : M S B :=
  fun s =>
    match m s with
    | (Ret a, s1, log1) =>
        match k a s1 with
        | (r, s2, log2) => (r, s2, log1 ++ log2)
        end
    | (Raise e, s1, log1) => (Raise e, s1, log1)
    end.

Notation "x <- m ;; k" := (bind m (fun x => k))
  (at level 100, m at next level, right associativity).
Notation "m ;;; k" := (bind m (fun _ => k))
  (at level 100, right associativity).

(** Where the world sits in a state. *)
Class HasWorld (W S : Type) : Type := {
  get_world : S -> W;
  set_world : W -> S -> S
}.

#[global] Instance world_itself W : HasWorld W W :=
  {| get_world := fun w => w; set_world := fun w _ => w |}.

(** A vendor call that may change the world, logged with its result. *)
Definition vendor_call {W S A} `{HasWorld W S}
    (f : W -> outcome A * W) (ev : outcome A -> list event) : M S A :=
  fun s => match f (get_world s) with
           | (r, w') => (r, set_world w' s, ev r)
           end.

(** A vendor call that only reads the world. *)
Definition vendor_read {W S A} `{HasWorld W S}
    (f : W -> outcome A) (ev : list event) : M S A :=
  fun s => (f (get_world s), s, ev).

(** [config(key)] where [config] is decouple's. *)
Definition config {W S} `{Vendor W} `{HasWorld W S} (key : string) : M S string :=
  vendor_read (decouple_config key) [EvConfig key].

(** The keys of the [EvConfig] events of a log. *)
Definition config_keys_of (log : list event) : list string :=
  flat_map (fun e => match e with EvConfig k => [k] | _ => [] end) log.

(** The three components of a run. *)
Definition result_of {S A} (m : M S A) (s : S) : outcome A := fst (fst (m s)).
Definition state_after {S A} (m : M S A) (s : S) : S := snd (fst (m s)).
Definition log_of {S A} (m : M S A) (s : S) : list event := snd (m s).

(** ** Module globals and name lookup *)

(** What a global name of text_to_speech.py can be bound to: an imported
    module, the module's own function, or decouple's [config]. *)
Inductive pyobj : Type :=
| ModuleObj (name : string)
| FunctionObj (name : string)
| DecoupleConfig.

(** Reading a global name: an unbound one raises [NameError] (no builtin
    is called [config] or [speechsdk]). *)
Definition load_global {S} (g : gmap string pyobj) (name : string) : M S pyobj :=
  match g !! name with
  | Some v => ret v
  | None => raise (NameError name)
  end.

(** Calling what a name is bound to with one string argument.  The only
    function of the module takes two. *)
Definition call1 {W S} `{Vendor W} `{HasWorld W S} (f : pyobj) (arg : string) : M S string :=
  match f with
  | DecoupleConfig => config arg
  | ModuleObj _ => raise (TypeError "'module' object is not callable")
  | FunctionObj _ => raise (TypeError "missing 1 required positional argument")
  end.

(** * text_to_speech.py *)

Module TextToSpeech.

(** The globals of the module after its two top lines have run: the import
    of [config] is a comment, so the name is not bound. *)
Definition module_globals : gmap string pyobj :=
  {[ "speechsdk" := ModuleObj "azure.cognitiveservices.speech";
     "create_speech_from_text" := FunctionObj "create_speech_from_text" ]}.

(** The same module with its first line not commented out. *)
Definition module_globals_with_config : gmap string pyobj :=
  <[ "config" := DecoupleConfig ]> module_globals.

(** The dict the callback builds, one field per key. *)
Record word_boundary : Type := {
  audio_offset : pyfloat;
  duration : timedelta;
  text : string;
  text_offset : Z;
  word_length : Z
}.

(** Lines 28-33: the dict built from one event.  [/] on two ints is true
    division and gives a float. *)
Definition word_boundary_of (evt : WordBoundaryEventArgs) : word_boundary :=
  {| audio_offset := int_truediv (evt_audio_offset evt + 5000) 10000;
     duration := evt_duration evt;
     text := evt_text evt;
     text_offset := evt_text_offset evt;
     word_length := evt_word_length evt |}.

(** Lines 27-34: the append goes to the list the enclosing function
    holds. *)
Definition speech_synthesizer_word_boundary_cb
    (evt : WordBoundaryEventArgs) (word_boundaries : list word_boundary)
    : list word_boundary :=
  let word_boundary := word_boundary_of evt in
  word_boundaries ++ [word_boundary].

(** The condition of the comprehension on line 67:
    [not " " in item['text']]. *)
Definition keeps (item : word_boundary) : bool := negb (str_in " " (text item)).

(** [SpeechSynthesizer]: its two configurations and the callbacks
    connected to [synthesis_word_boundary]. *)
Record SpeechSynthesizer : Type := {
  synth_speech_config : SpeechConfig;
  synth_audio_config : AudioOutputConfig;
  synthesis_word_boundary :
    list (WordBoundaryEventArgs -> list word_boundary -> list word_boundary)
}.

Definition connect (s : SpeechSynthesizer)
    (cb : WordBoundaryEventArgs -> list word_boundary -> list word_boundary)
    : SpeechSynthesizer :=
  {| synth_speech_config := synth_speech_config s;
     synth_audio_config := synth_audio_config s;
     synthesis_word_boundary := synthesis_word_boundary s ++ [cb] |}.

(** Delivering the fired events, in order, to every connected callback. *)
Definition deliver (s : SpeechSynthesizer) (fired : list WordBoundaryEventArgs)
    (cell : list word_boundary) : list word_boundary :=
  fold_left (fun acc evt =>
               fold_left (fun acc' cb => cb evt acc') (synthesis_word_boundary s) acc)
            fired cell.

Definition newline : string := String "010"%char EmptyString.

(** The SSML document of lines 54-58: the template with its two [{}]
    filled by the voice name and the text. *)
Definition ssml_of (voice text : string) : string :=
  "<speak version='1.0' xml:lang='en-US' xmlns='http://www.w3.org/2001/10/synthesis' xmlns:mstts='http://www.w3.org/2001/mstts'>"
  +:+ newline +:+ "        <voice name='" +:+ voice +:+ "'>"
  +:+ newline +:+ "            " +:+ text
  +:+ newline +:+ "        </voice>"
  +:+ newline +:+ "    </speak>".

Section Run.
Context {W : Type} `{V : Vendor W}.

(** [speechsdk.SpeechConfig(subscription=..., region=...)]. *)
Definition mk_SpeechConfig (sub reg : string) : M W SpeechConfig :=
  vendor_read (new_SpeechConfig sub reg) [EvSpeechConfig sub reg] ;;;
  ret {| subscription := sub; region := reg;
         speech_synthesis_voice_name := None;
         speech_synthesis_output_format := None;
         properties := [] |}.

Definition set_voice_name (c : SpeechConfig) (v : string) : SpeechConfig :=
  {| subscription := subscription c; region := region c;
     speech_synthesis_voice_name := Some v;
     speech_synthesis_output_format := speech_synthesis_output_format c;
     properties := properties c |}.

Definition set_speech_synthesis_output_format
    (c : SpeechConfig) (f : SpeechSynthesisOutputFormat) : SpeechConfig :=
  {| subscription := subscription c; region := region c;
     speech_synthesis_voice_name := speech_synthesis_voice_name c;
     speech_synthesis_output_format := Some f;
     properties := properties c |}.

Definition set_property (c : SpeechConfig) (p : PropertyId) (v : string) : SpeechConfig :=
  {| subscription := subscription c; region := region c;
     speech_synthesis_voice_name := speech_synthesis_voice_name c;
     speech_synthesis_output_format := speech_synthesis_output_format c;
     properties := properties c ++ [(p, v)] |}.

(** [speechsdk.audio.AudioOutputConfig(filename=...)]. *)
Definition mk_AudioOutputConfig (fn : string) : M W AudioOutputConfig :=
  vendor_read (new_AudioOutputConfig fn) [EvAudioOutputConfig fn] ;;;
  ret {| filename := fn |}.

(** [speechsdk.SpeechSynthesizer(speech_config=..., audio_config=...)]. *)
Definition mk_SpeechSynthesizer (c : SpeechConfig) (a : AudioOutputConfig)
    : M W SpeechSynthesizer :=
  vendor_call (new_SpeechSynthesizer c a) (fun _ => [EvSpeechSynthesizer c a]) ;;;
  ret {| synth_speech_config := c; synth_audio_config := a;
         synthesis_word_boundary := [] |}.

(** [speech_synthesizer.speak_ssml(ssml)]: blocks until the synthesis is
    over; the callbacks have run by then.  Line 66 drops what the call
    returns; what is left is the list the callbacks have been appending
    to. *)
Definition speak_ssml (s : SpeechSynthesizer) (ssml : string)
    (cell : list word_boundary) : M W (list word_boundary) :=
  fun w =>
    match azure_speak_ssml (synth_speech_config s) (synth_audio_config s) ssml w with
    | (fired, r, w') =>
        (match r with
         | Ret _ => Ret (deliver s fired cell)
         | Raise e => Raise e
         end,
         w',
         [EvSpeakSsml (synth_speech_config s) (synth_audio_config s) ssml fired r])
    end.

(** Lines 4-70, over the globals [g] the module has when it is called. *)
Definition create_speech_from_text (g : gmap string pyobj)
    (text output_filename : string) : M W (list word_boundary) :=
  let word_boundaries := [] in
  (* def of the callback: its annotation reads [speechsdk] *)
  load_global g "speechsdk" ;;;
  (* lines 36-39: callee first, then the arguments left to right *)
  load_global g "speechsdk" ;;;
  config1 <- load_global g "config" ;;
  speech_key <- call1 config1 "SPEECH_KEY" ;;
  config2 <- load_global g "config" ;;
  service_region <- call1 config2 "SERVICE_REGION" ;;
  speech_config <- mk_SpeechConfig speech_key service_region ;;
  let speech_config := set_voice_name speech_config "en-US-AvaNeural" in
  load_global g "speechsdk" ;;;
  let speech_config :=
    set_speech_synthesis_output_format speech_config Audio16Khz32KBitRateMonoMp3 in
  load_global g "speechsdk" ;;;
  let speech_config :=
    set_property speech_config SpeechServiceResponse_RequestSentenceBoundary "true" in
  load_global g "speechsdk" ;;;
  audio_config <- mk_AudioOutputConfig output_filename ;;
  let ssml := ssml_of "en-US-AvaNeural" text in
  load_global g "speechsdk" ;;;
  speech_synthesizer <- mk_SpeechSynthesizer speech_config audio_config ;;
  let speech_synthesizer :=
    connect speech_synthesizer speech_synthesizer_word_boundary_cb in
  word_boundaries <- speak_ssml speech_synthesizer ssml word_boundaries ;;
  let word_boundaries :=
    List.filter keeps word_boundaries in
  let word_boundaries := sorted text_offset word_boundaries in
  ret word_boundaries.

(** The records the callback collected in a run: one per fired event. *)
Definition collected (log : list event) : list word_boundary :=
  flat_map (fun e => match e with
                     | EvSpeakSsml _ _ _ fired _ =>
                         fold_left (fun acc evt =>
                                      speech_synthesizer_word_boundary_cb evt acc)
                                   fired []
                     | _ => []
                     end) log.

(** Where each [speak_ssml] of a run was told to render, and in which
    format: the file of the synthesizer's audio configuration and the
    output format of its speech configuration. *)
Definition render_targets (log : list event)
    : list (string * option SpeechSynthesisOutputFormat) :=
  flat_map (fun e => match e with
                     | EvSpeakSsml c a _ _ _ =>
                         [(filename a, speech_synthesis_output_format c)]
                     | _ => []
                     end) log.

(** What the SDK wrote in a run: for each [speak_ssml] that returned, the
    file and the audio of its result (no audio, an empty file, for a
    canceled synthesis). *)
Definition audio_written (log : list event) : list (string * string) :=
  flat_map (fun e => match e with
                     | EvSpeakSsml _ a _ _ (Ret res) => [(filename a, audio_data res)]
                     | _ => []
                     end) log.

(** Every output path handed to the SDK in a run. *)
Definition output_paths (log : list event) : list string :=
  flat_map (fun e => match e with
                     | EvAudioOutputConfig fn => [fn]
                     | EvSpeechSynthesizer _ a => [filename a]
                     | EvSpeakSsml _ a _ _ _ => [filename a]
                     | _ => []
                     end) log.

(** The calls into the speech SDK of a run. *)
Definition is_sdk_call (e : event) : bool :=
  match e with
  | EvSpeechConfig _ _ | EvAudioOutputConfig _
  | EvSpeechSynthesizer _ _ | EvSpeakSsml _ _ _ _ _ => true
  | _ => false
  end.
End Run.

(** The configuration lines 36-49 build, which [speak_ssml] runs with. *)
Definition final_config (sub reg : string) : SpeechConfig :=
  {| subscription := sub; region := reg;
     speech_synthesis_voice_name := Some "en-US-AvaNeural";
     speech_synthesis_output_format := Some Audio16Khz32KBitRateMonoMp3;
     properties := [(SpeechServiceResponse_RequestSentenceBoundary, "true")] |}.

(** Every call that returns was told to render MP3 to the caller's path
    and has left synthesized audio there, not an empty file. *)
Definition returns_with_audio : Prop :=
  forall W (V : Vendor W) g txt fn (w w' : W) l log,
    create_speech_from_text g txt fn w = (Ret l, w', log) ->
    render_targets log = [(fn, Some Audio16Khz32KBitRateMonoMp3)] /\
    exists audio, audio <> EmptyString /\ audio_written log = [(fn, audio)].

End TextToSpeech.

(** * ibm_text_analysis.py *)

Module IbmTextAnalysis.

(** An [IBM_Watson] object: its two attributes. *)
Record IBM_Watson : Type := {
  authenticator : option BearerTokenAuthenticator;
  token : option string
}.

(** [__init__]. *)
Definition init : IBM_Watson := {| authenticator := None; token := None |}.

(** The methods run on the world and on [self], which they mutate. *)
#[global] Instance world_and_self W : HasWorld W (W * IBM_Watson) :=
  {| get_world := fst; set_world := fun w s => (w, snd s) |}.

(** [str(x)] of an attribute that holds a [str] or [None]. *)
Definition str_of (x : option string) : string :=
  match x with
  | Some s => s
  | None => "None"
  end.

(** *** [set_service_url] of the IBM core SDK

    It refuses a URL that starts or ends with a curly bracket or a double
    quote, and stores any other with its trailing slashes removed. *)

Definition first_char (s : string) : option ascii := String.get 0 s.

Fixpoint last_char (s : string) : option ascii :=
  match s with
  | EmptyString => None
  | String c EmptyString => Some c
  | String _ s' => last_char s'
  end.

Definition is_char (c : ascii) (o : option ascii) : bool :=
  match o with
  | Some c' => Ascii.eqb c' c
  | None => false
  end.

(** [has_bad_first_or_last_char(val)]. *)
Definition has_bad_first_or_last_char (val : string) : bool :=
  is_char "{" (first_char val) || is_char "034" (first_char val)
  || is_char "}" (last_char val) || is_char "034" (last_char val).

(** [s.rstrip(c)] for one character. *)
Fixpoint rstrip (c : ascii) (s : string) : string :=
  match s with
  | EmptyString => EmptyString
  | String a s' =>
      match rstrip c s' with
      | EmptyString => if Ascii.eqb a c then EmptyString else String a EmptyString
      | rest => String a rest
      end
  end.

Definition service_url_error : exn :=
  ValueError ("The service url shouldn't start or end with curly brackets or quotes. "
              +:+ "Be sure to remove any {} and " +:+ double_quote
              +:+ " characters surrounding your service url").

(** The URL [set_service_url] stores for the one it is given. *)
Definition checked_service_url (url : string) : outcome string :=
  if has_bad_first_or_last_char url then Raise service_url_error
  else Ret (rstrip "/" url).

Definition set_service_url (s : NaturalLanguageUnderstandingV1) (url : string)
    : outcome NaturalLanguageUnderstandingV1 :=
  match checked_service_url url with
  | Ret u => Ret {| version := version s; nlu_authenticator := nlu_authenticator s;
                    nlu_service_url := Some u |}
  | Raise e => Raise e
  end.

Definition tts_set_service_url (s : TextToSpeechV1) (url : string)
    : outcome TextToSpeechV1 :=
  match checked_service_url url with
  | Ret u => Ret {| tts_authenticator := tts_authenticator s; tts_service_url := Some u |}
  | Raise e => Raise e
  end.

(** The URL a new client has until one is set. *)
Definition nlu_default_service_url : string :=
  "https://api.us-south.natural-language-understanding.watson.cloud.ibm.com".

Definition tts_default_service_url : string :=
  "https://api.us-south.text-to-speech.watson.cloud.ibm.com".

Section Run.
Context {W : Type} `{V : Vendor W}.

Abbreviation St := (W * IBM_Watson)%type.

Definition get_self : M St IBM_Watson := fun s => (Ret (snd s), s, []).

Definition set_self (o : IBM_Watson) : M St unit := fun s => (Ret tt, (fst s, o), []).

(** An outcome already in hand: returns or raises, no effect. *)
Definition lift {A} (r : outcome A) : M St A := fun s => (r, s, []).

(** [BearerTokenAuthenticator(token)]: refuses [None]. *)
Definition mk_BearerTokenAuthenticator (t : option string) : M St BearerTokenAuthenticator :=
  match t with
  | Some tok => ret {| bearer_token := tok |}
  | None => raise (ValueError "The bearer token shouldn't be None.")
  end.

(** Lines 25-27. *)
Definition authenticate (apikey : string) : M St unit :=
  tok <- vendor_call (iam_get_token apikey) (fun r => [EvGetToken apikey r]) ;;
  self <- get_self ;;
  set_self {| authenticator := authenticator self; token := Some tok |} ;;;
  self <- get_self ;;
  auth <- mk_BearerTokenAuthenticator (token self) ;;
  set_self {| authenticator := Some auth; token := token self |}.

(** Lines 29-45. *)
Definition get_natural_language_service (version : string)
    : M St NaturalLanguageUnderstandingV1 :=
  key <- config "NLP_KEY" ;;
  authenticate key ;;;
  self <- get_self ;;
  let service :=
    {| version := version; nlu_authenticator := authenticator self;
       nlu_service_url := Some nlu_default_service_url |} in
  url <- config "NLP_BASE_URL" ;;
  service <- lift (set_service_url service url) ;;
  ret service.

(** Lines 47-72.  [transcript] starts as [None] and is assigned only
    under the status test. *)
Definition get_speech_to_text_result (file_path : string) : M St json :=
  key <- config "STT_API_KEY" ;;
  authenticate key ;;;
  let transcript := JNull in
  self <- get_self ;;
  let headers :=
    [("Authorization", "Bearer " +:+ str_of (token self));
     ("Content-Type", "audio/mp3");
     ("x-global-transaction-id", "presentation-skills-request")] in
  file <- vendor_call (open_rb file_path) (fun _ => [EvOpen file_path "rb"]) ;;
  url <- config "URL" ;;
  response <- vendor_call (requests_post url headers file)
                          (fun r => [EvPost url headers file r]) ;;
  if status_code response =? 200 then
    transcript <- lift (response_json response) ;;
    ret transcript
  else ret transcript.

(** Lines 74-84. *)
Definition get_text_to_speech_service : M St TextToSpeechV1 :=
  key <- config "TTS_API_KE" ;;
  authenticate key ;;;
  self <- get_self ;;
  let service :=
    {| tts_authenticator := authenticator self;
       tts_service_url := Some tts_default_service_url |} in
  url <- config "TTS_BASE_URL" ;;
  service <- lift (tts_set_service_url service url) ;;
  ret service.

(** [service.analyze(...).get_result()]. *)
Definition analyze (service : NaturalLanguageUnderstandingV1) (req : analyze_request)
    : M St json :=
  vendor_call (nlu_analyze service req) (fun _ => [EvAnalyze service req]).

(** Lines 86-102. *)
Definition get_text_concept (text : string) : M St string :=
  natural_language_service <- get_natural_language_service "2022-04-07" ;;
  response <- analyze natural_language_service
    {| text := text;
       features := {| concepts := Some {| limit := Some 3 |};
                      emotion := None; semantic_roles := None;
                      sentiment := None; classifications := None |};
       language := Some "en" |} ;;
  ret (json_dumps response).

(** Lines 104-120. *)
Definition get_text_emotion (text : string) : M St string :=
  natural_language_service <- get_natural_language_service "2022-04-07" ;;
  response <- analyze natural_language_service
    {| text := text;
       features := {| concepts := None;
                      emotion := Some {| emotion_document := None;
                                         emotion_targets := None |};
                      semantic_roles := None;
                      sentiment := None; classifications := None |};
       language := Some "en" |} ;;
  ret (json_dumps response).

(** Lines 122-138. *)
Definition get_text_semantic_roles (text : string) : M St string :=
  natural_language_service <- get_natural_language_service "2022-04-07" ;;
  response <- analyze natural_language_service
    {| text := text;
       features := {| concepts := None; emotion := None;
                      semantic_roles := Some {| semantic_roles_limit := None |};
                      sentiment := None; classifications := None |};
       language := Some "en" |} ;;
  ret (json_dumps response).

(** Lines 140-156. *)
Definition get_text_sentiment (text : string) : M St string :=
  natural_language_service <- get_natural_language_service "2022-04-07" ;;
  response <- analyze natural_language_service
    {| text := text;
       features := {| concepts := None; emotion := None; semantic_roles := None;
                      sentiment := Some {| document := Some false;
                                           targets := Some (str_split "." text) |};
                      classifications := None |};
       language := Some "en" |} ;;
  ret (json_dumps response).

(** Lines 158-164: no [language] keyword. *)
Definition get_text_tone (text : string) : M St string :=
  natural_language_service <- get_natural_language_service "2022-04-07" ;;
  response <- analyze natural_language_service
    {| text := text;
       features := {| concepts := None; emotion := None; semantic_roles := None;
                      sentiment := None;
                      classifications :=
                        Some {| model := Some "tone-classifications-en-v1" |} |};
       language := None |} ;;
  ret (json_dumps response).
End Run.

End IbmTextAnalysis.

(** * The program: every function a caller can invoke *)

Module Program.
Import TextToSpeech IbmTextAnalysis.

Inductive entry : Type :=
| call_create_speech_from_text (text output_filename : string)
| call_authenticate (apikey : string)
| call_get_natural_language_service (version : string)
| call_get_speech_to_text_result (file_path : string)
| call_get_text_to_speech_service
| call_get_text_concept (text : string)
| call_get_text_emotion (text : string)
| call_get_text_semantic_roles (text : string)
| call_get_text_sentiment (text : string)
| call_get_text_tone (text : string).

(** The log of one call, [g] being the globals of text_to_speech.py. *)
Definition run_log {W} `{Vendor W} (g : gmap string pyobj) (e : entry)
    (st : W * IBM_Watson) : list event :=
  match e with
  | call_create_speech_from_text t f => log_of (create_speech_from_text g t f) (fst st)
  | call_authenticate k => log_of (authenticate k) st
  | call_get_natural_language_service v => log_of (get_natural_language_service v) st
  | call_get_speech_to_text_result p => log_of (get_speech_to_text_result p) st
  | call_get_text_to_speech_service => log_of get_text_to_speech_service st
  | call_get_text_concept t => log_of (get_text_concept t) st
  | call_get_text_emotion t => log_of (get_text_emotion t) st
  | call_get_text_semantic_roles t => log_of (get_text_semantic_roles t) st
  | call_get_text_sentiment t => log_of (get_text_sentiment t) st
  | call_get_text_tone t => log_of (get_text_tone t) st
  end.

(** Every lookup of every call, in every world, names a key of [keys]. *)
Definition lookups_within (keys : list string) : Prop :=
  forall W (V : Vendor W) g e (st : W * IBM_Watson),
    incl (config_keys_of (run_log g e st)) keys.

(** [keys] is exactly what the program looks up: nothing else is looked
    up, and each key is looked up by some call in some world. *)
Definition config_keys_exactly (keys : list string) : Prop :=
  lookups_within keys /\
  forall k, In k keys ->
    exists W (V : Vendor W) e (st : W * IBM_Watson),
      In k (config_keys_of (run_log TextToSpeech.module_globals e st)).

(** The keys section 6 of the specification lists. *)
Definition listed_keys : list string :=
  ["NLP_KEY"; "NLP_BASE_URL"; "STT_API_KEY"; "URL"; "TTS_API_KE";
   "SPEECH_KEY"; "SERVICE_REGION"].

(** The keys the Watson adapter looks up. *)
Definition watson_keys : list string :=
  ["NLP_KEY"; "NLP_BASE_URL"; "STT_API_KEY"; "URL"; "TTS_API_KE"; "TTS_BASE_URL"].

(** The keys the Azure adapter passes to [config]. *)
Definition azure_keys : list string := ["SPEECH_KEY"; "SERVICE_REGION"].

End Program.


(** * What the properties are stated with *)

(** The order [sorted] sorts by. *)
Definition by_key {A} (key : A -> Z) (a b : A) : Prop := key a <= key b.

(** [s] contains the character [c]. *)
Definition has_char (c : ascii) (s : string) : Prop := In c (list_ascii_of_string s).

(** The responses of the [requests.post] calls of a log. *)
Definition posts (log : list event) : list (outcome response) :=
  flat_map (fun e => match e with EvPost _ _ _ got => [got] | _ => [] end) log.

(** The requests sent to a vendor service: an analysis or a raw post. *)
Definition is_vendor_request (e : event) : bool :=
  match e with
  | EvAnalyze _ _ | EvPost _ _ _ _ => true
  | _ => false
  end.

(** The value under a name in a header dict. *)
Fixpoint header (name : string) (hs : list (string * string)) : option string :=
  match hs with
  | [] => None
  | (n, v) :: hs' => if String.eqb n name then Some v else header name hs'
  end.

(** The [Authorization] header a vendor request goes out with: the one a
    bearer-token authenticator adds, or the one the code wrote itself. *)
Definition authorization_of (e : event) : option string :=
  match e with
  | EvAnalyze service _ =>
      match nlu_authenticator service with
      | Some a => Some ("Bearer " +:+ bearer_token a)
      | None => None
      end
  | EvPost _ headers _ _ => header "Authorization" headers
  | _ => None
  end.

(** The headers of the raw transcription request, for the token [tok]. *)
Definition stt_headers (tok : string) : list (string * string) :=
  [("Authorization", "Bearer " +:+ tok);
   ("Content-Type", "audio/mp3");
   ("x-global-transaction-id", "presentation-skills-request")].

(** A time in ticks of 100 nanoseconds, in seconds. *)
Definition seconds_of_ticks (ticks : Z) : Q := inject_Z ticks / inject_Z 10000000.

(** The six operations of the Watson adapter that send a request. *)
Inductive operation : Type :=
| concept (text : string)
| emotion_of (text : string)
| semantic_roles_of (text : string)
| sentiment_of (text : string)
| tone (text : string)
| speech_to_text (file_path : string).

Definition operation_log {W} `{Vendor W} (op : operation)
    (st : W * IbmTextAnalysis.IBM_Watson) : list event :=
  match op with
  | concept t => log_of (IbmTextAnalysis.get_text_concept t) st
  | emotion_of t => log_of (IbmTextAnalysis.get_text_emotion t) st
  | semantic_roles_of t => log_of (IbmTextAnalysis.get_text_semantic_roles t) st
  | sentiment_of t => log_of (IbmTextAnalysis.get_text_sentiment t) st
  | tone t => log_of (IbmTextAnalysis.get_text_tone t) st
  | speech_to_text p => log_of (IbmTextAnalysis.get_speech_to_text_result p) st
  end.

(** The world and the object after an operation. *)
Definition operation_state {W} `{Vendor W} (op : operation)
    (st : W * IbmTextAnalysis.IBM_Watson) : W * IbmTextAnalysis.IBM_Watson :=
  match op with
  | concept t => state_after (IbmTextAnalysis.get_text_concept t) st
  | emotion_of t => state_after (IbmTextAnalysis.get_text_emotion t) st
  | semantic_roles_of t => state_after (IbmTextAnalysis.get_text_semantic_roles t) st
  | sentiment_of t => state_after (IbmTextAnalysis.get_text_sentiment t) st
  | tone t => state_after (IbmTextAnalysis.get_text_tone t) st
  | speech_to_text p => state_after (IbmTextAnalysis.get_speech_to_text_result p) st
  end.

(** The configuration key an operation takes its API key from. *)
Definition api_key_name (op : operation) : string :=
  match op with
  | speech_to_text _ => "STT_API_KEY"
  | _ => "NLP_KEY"
  end.

(** * A scripted world

    A concrete vendor: the configuration store, the status the
    transcription endpoint answers with and the events the speech service
    fires are data of the world; IAM hands out a new token per call. *)

Module Scripted.

Record world : Type := {
  env : gmap string string;
  tokens_issued : nat;
  stt_status : Z;
  stt_body : json;
  to_fire : list WordBoundaryEventArgs
}.

(** A synthesis that ran to its end. *)
Definition completed : SpeechSynthesisResult :=
  {| reason := SynthesizingAudioCompleted; audio_data := "ID3 audio" |}.

Fixpoint primes (n : nat) : string :=
  match n with
  | O => EmptyString
  | S n' => String "'"%char (primes n')
  end.

Definition issue_token (w : world) : world :=
  {| env := env w; tokens_issued := S (tokens_issued w);
     stt_status := stt_status w; stt_body := stt_body w; to_fire := to_fire w |}.

#[global] Instance vendor : Vendor world := {|
  decouple_config key w :=
    match env w !! key with
    | Some v => Ret v
    | None => Raise (UndefinedValueError key)
    end;
  iam_get_token apikey w := (Ret ("token" +:+ primes (tokens_issued w)), issue_token w);
  nlu_analyze _ req w := (Ret (JObject [("language", JString "en")]), w);
  open_rb path w := (Ret "ID3", w);
  requests_post url headers file w :=
    (Ret {| status_code := stt_status w; response_json := Ret (stt_body w) |}, w);
  json_dumps := json_dumps_indent2;
  new_SpeechConfig _ _ _ := Ret tt;
  new_AudioOutputConfig _ _ := Ret tt;
  new_SpeechSynthesizer _ _ w := (Ret tt, w);
  azure_speak_ssml _ _ _ w := (to_fire w, Ret completed, w)
|}.

Definition full_env : gmap string string :=
  list_to_map
    [("NLP_KEY", "k-nlp"); ("NLP_BASE_URL", "https://nlu.example");
     ("STT_API_KEY", "k-stt"); ("URL", "https://stt.example/recognize");
     ("TTS_API_KE", "k-tts"); ("TTS_BASE_URL", "https://tts.example");
     ("SPEECH_KEY", "k-speech"); ("SERVICE_REGION", "westeurope")].

Definition ev (ticks : Z) (us : Z) (t : string) (off len : Z) : WordBoundaryEventArgs :=
  {| evt_audio_offset := ticks; evt_duration := {| total_microseconds := us |};
     evt_text := t; evt_text_offset := off; evt_word_length := len |}.

(** "Hello big world" spoken: two words out of order, a sentence fragment
    with a space in it, and a third word. *)
Definition hello_events : list WordBoundaryEventArgs :=
  [ev 3000000 250000 "big" 6 3;
   ev 500000 300000 "Hello" 0 5;
   ev 500000 1200000 "Hello big world" 0 15;
   ev 6000000 400000 "world" 10 5].

Definition world0 (status : Z) : world :=
  {| env := full_env; tokens_issued := 0; stt_status := status;
     stt_body := JObject [("results", JArray [])]; to_fire := hello_events |}.

(** An object left over from an earlier call, still holding its token. *)
Definition used_self : IbmTextAnalysis.IBM_Watson :=
  {| IbmTextAnalysis.authenticator := Some {| bearer_token := "stale" |};
     IbmTextAnalysis.token := Some "stale" |}.

(** What [create_speech_from_text] gives in [world0] for the text
    "Hello big world" and the file "out.mp3", once [config] is bound. *)
Definition hello_result : list TextToSpeech.word_boundary :=
  [TextToSpeech.word_boundary_of (ev 500000 300000 "Hello" 0 5);
   TextToSpeech.word_boundary_of (ev 3000000 250000 "big" 6 3);
   TextToSpeech.word_boundary_of (ev 6000000 400000 "world" 10 5)].

Definition hello_log : list event :=
  [EvConfig "SPEECH_KEY"; EvConfig "SERVICE_REGION";
   EvSpeechConfig "k-speech" "westeurope"; EvAudioOutputConfig "out.mp3";
   EvSpeechSynthesizer (TextToSpeech.final_config "k-speech" "westeurope")
                       {| filename := "out.mp3" |};
   EvSpeakSsml (TextToSpeech.final_config "k-speech" "westeurope")
               {| filename := "out.mp3" |}
               (TextToSpeech.ssml_of "en-US-AvaNeural" "Hello big world")
               hello_events (Ret completed)].

(** A word that starts one second into the audio and lasts half a
    second. *)
Definition one_second_in : WordBoundaryEventArgs := ev 10000000 500000 "word" 0 4.

(** The object after a call that obtained [tok]. *)
Definition authed (tok : string) : IbmTextAnalysis.IBM_Watson :=
  {| IbmTextAnalysis.authenticator := Some {| bearer_token := tok |};
     IbmTextAnalysis.token := Some tok |}.

(** The state a Watson call starts in: the scripted world and the used
    object. *)
Definition st0 (status : Z) : world * IbmTextAnalysis.IBM_Watson :=
  (world0 status, used_self).

(** The log of [get_speech_to_text_result "a.mp3"] from [st0 status]. *)
Definition stt_log (status : Z) : list event :=
  [EvConfig "STT_API_KEY"; EvGetToken "k-stt" (Ret "token");
   EvOpen "a.mp3" "rb"; EvConfig "URL";
   EvPost "https://stt.example/recognize" (stt_headers "token") "ID3"
          (Ret {| status_code := status;
                  response_json := Ret (JObject [("results", JArray [])]) |})].

(** The service the analysis methods build in [st0]. *)
Definition nlu_service : NaturalLanguageUnderstandingV1 :=
  {| version := "2022-04-07";
     nlu_authenticator := Some {| bearer_token := "token" |};
     nlu_service_url := Some "https://nlu.example" |}.

(** The events of an analysis method in [st0] before its request. *)
Definition nlu_prelude : list event :=
  [EvConfig "NLP_KEY"; EvGetToken "k-nlp" (Ret "token"); EvConfig "NLP_BASE_URL"].

(** The requests [get_text_concept], [get_text_sentiment] and
    [get_text_tone] send for a text. *)
Definition concept_request (t : string) : analyze_request :=
  {| text := t;
     features := {| concepts := Some {| limit := Some 3 |}; emotion := None;
                    semantic_roles := None; sentiment := None;
                    classifications := None |};
     language := Some "en" |}.

Definition sentiment_request (t : string) (ts : list string) : analyze_request :=
  {| text := t;
     features := {| concepts := None; emotion := None; semantic_roles := None;
                    sentiment := Some {| document := Some false; targets := Some ts |};
                    classifications := None |};
     language := Some "en" |}.

Definition emotion_request (t : string) : analyze_request :=
  {| text := t;
     features := {| concepts := None;
                    emotion := Some {| emotion_document := None;
                                       emotion_targets := None |};
                    semantic_roles := None; sentiment := None;
                    classifications := None |};
     language := Some "en" |}.

Definition semantic_roles_request (t : string) : analyze_request :=
  {| text := t;
     features := {| concepts := None; emotion := None;
                    semantic_roles := Some {| semantic_roles_limit := None |};
                    sentiment := None; classifications := None |};
     language := Some "en" |}.

Definition tone_request (t : string) : analyze_request :=
  {| text := t;
     features := {| concepts := None; emotion := None; semantic_roles := None;
                    sentiment := None;
                    classifications :=
                      Some {| model := Some "tone-classifications-en-v1" |} |};
     language := None |}.

End Scripted.

(** * Observations on whole runs *)

(** The exception a result carries, if it is one. *)
Definition raised {A} (r : outcome A) : option exn :=
  match r with
  | Ret _ => None
  | Raise e => Some e
  end.

(** The IAM calls of a log, with what each returned. *)
Definition get_tokens (log : list event) : list (string * outcome string) :=
  flat_map (fun e => match e with EvGetToken k got => [(k, got)] | _ => [] end) log.

(** The [speak_ssml] calls of a log: the document of each. *)
Definition spoken (log : list event) : list string :=
  flat_map (fun e => match e with EvSpeakSsml _ _ ssml _ _ => [ssml] | _ => [] end) log.

(** The calls that go to IBM, to the file system or to the HTTP client. *)
Definition is_watson_call (e : event) : bool :=
  match e with
  | EvGetToken _ _ | EvAnalyze _ _ | EvOpen _ _ | EvPost _ _ _ _ => true
  | _ => false
  end.

(** How often [c] occurs in [s]. *)
Fixpoint count_char (c : ascii) (s : string) : nat :=
  match s with
  | EmptyString => O
  | String c' s' => if Ascii.eqb c' c then Datatypes.S (count_char c s')
                    else count_char c s'
  end.

(** 1 for a keyword that was given, 0 for one left at [None]. *)
Definition given {A} (o : option A) : nat :=
  match o with
  | Some _ => 1
  | None => 0
  end.

(** How many features a [Features] object asks for. *)
Definition feature_count (f : Features) : nat :=
  (given (concepts f) + given (emotion f) + given (semantic_roles f)
   + given (sentiment f) + given (classifications f))%nat.

(** The text an operation is called with (the path, for a transcription). *)
Definition argument_of (op : operation) : string :=
  match op with
  | concept t | emotion_of t | semantic_roles_of t | sentiment_of t | tone t => t
  | speech_to_text p => p
  end.

(** The object holds a token and the authenticator made from it, or
    neither. *)
Definition consistent (self : IbmTextAnalysis.IBM_Watson) : Prop :=
  IbmTextAnalysis.authenticator self
  = option_map (fun t => {| bearer_token := t |}) (IbmTextAnalysis.token self).

(** The SSML document around the text: lines 54-58 up to and after the
    second [{}], the first one filled with the voice. *)
Definition ssml_prefix : string :=
  "<speak version='1.0' xml:lang='en-US' xmlns='http://www.w3.org/2001/10/synthesis' xmlns:mstts='http://www.w3.org/2001/mstts'>"
  +:+ TextToSpeech.newline +:+ "        <voice name='en-US-AvaNeural'>"
  +:+ TextToSpeech.newline +:+ "            ".

Definition ssml_suffix : string :=
  TextToSpeech.newline +:+ "        </voice>"
  +:+ TextToSpeech.newline +:+ "    </speak>".

Module Runs.
Import TextToSpeech IbmTextAnalysis Program.

(** The exception a call ends with, if it raises. *)
Definition run_raised {W} `{Vendor W} (g : gmap string pyobj) (e : entry)
    (st : W * IBM_Watson) : option exn :=
  match e with
  | call_create_speech_from_text t f =>
      raised (result_of (create_speech_from_text g t f) (fst st))
  | call_authenticate k => raised (result_of (authenticate k) st)
  | call_get_natural_language_service v =>
      raised (result_of (get_natural_language_service v) st)
  | call_get_speech_to_text_result p =>
      raised (result_of (get_speech_to_text_result p) st)
  | call_get_text_to_speech_service => raised (result_of get_text_to_speech_service st)
  | call_get_text_concept t => raised (result_of (get_text_concept t) st)
  | call_get_text_emotion t => raised (result_of (get_text_emotion t) st)
  | call_get_text_semantic_roles t => raised (result_of (get_text_semantic_roles t) st)
  | call_get_text_sentiment t => raised (result_of (get_text_sentiment t) st)
  | call_get_text_tone t => raised (result_of (get_text_tone t) st)
  end.

(** The world and the object after a call.  [create_speech_from_text] has
    no object to touch. *)
Definition run_state {W} `{Vendor W} (g : gmap string pyobj) (e : entry)
    (st : W * IBM_Watson) : W * IBM_Watson :=
  match e with
  | call_create_speech_from_text t f =>
      (state_after (create_speech_from_text g t f) (fst st), snd st)
  | call_authenticate k => state_after (authenticate k) st
  | call_get_natural_language_service v => state_after (get_natural_language_service v) st
  | call_get_speech_to_text_result p => state_after (get_speech_to_text_result p) st
  | call_get_text_to_speech_service => state_after get_text_to_speech_service st
  | call_get_text_concept t => state_after (get_text_concept t) st
  | call_get_text_emotion t => state_after (get_text_emotion t) st
  | call_get_text_semantic_roles t => state_after (get_text_semantic_roles t) st
  | call_get_text_sentiment t => state_after (get_text_sentiment t) st
  | call_get_text_tone t => state_after (get_text_tone t) st
  end.

(** The configuration key a call looks up first; [authenticate] is handed
    its key. *)
Definition first_key (e : entry) : option string :=
  match e with
  | call_create_speech_from_text _ _ => Some "SPEECH_KEY"
  | call_authenticate _ => None
  | call_get_speech_to_text_result _ => Some "STT_API_KEY"
  | call_get_text_to_speech_service => Some "TTS_API_KE"
  | _ => Some "NLP_KEY"
  end.

Definition is_speech_entry (e : entry) : bool :=
  match e with
  | call_create_speech_from_text _ _ => true
  | _ => false
  end.

Section Methods.
Context {W : Type} `{V : Vendor W}.

(** The five analysis methods. *)
Inductive analysis_method : (string -> M (W * IBM_Watson) string) -> Prop :=
| is_get_text_concept : analysis_method get_text_concept
| is_get_text_emotion : analysis_method get_text_emotion
| is_get_text_semantic_roles : analysis_method get_text_semantic_roles
| is_get_text_sentiment : analysis_method get_text_sentiment
| is_get_text_tone : analysis_method get_text_tone.
End Methods.

End Runs.

(** * A replaying world

    A second concrete vendor, for the paths on which a vendor fails: each
    call answers with what the world holds for it, and the world does not
    change. *)

Module Replay.

Record world : Type := {
  env : gmap string string;
  iam : outcome string;
  analysed : outcome json;
  opened : outcome string;
  posted : outcome response;
  constructed : outcome unit;
  fired : list WordBoundaryEventArgs;
  spoke : outcome SpeechSynthesisResult
}.

#[global] Instance vendor : Vendor world := {|
  decouple_config key w :=
    match env w !! key with
    | Some v => Ret v
    | None => Raise (UndefinedValueError key)
    end;
  iam_get_token _ w := (iam w, w);
  nlu_analyze _ _ w := (analysed w, w);
  open_rb _ w := (opened w, w);
  requests_post _ _ _ w := (posted w, w);
  json_dumps := json_dumps_indent2;
  new_SpeechConfig _ _ w := constructed w;
  new_AudioOutputConfig _ _ := Ret tt;
  new_SpeechSynthesizer _ _ w := (Ret tt, w);
  azure_speak_ssml _ _ _ w := (fired w, spoke w, w)
|}.

(** Three words, two of them at the same offset, and a fragment. *)
Definition tied_events : list WordBoundaryEventArgs :=
  [Scripted.ev 3000000 250000 "b" 4 1;
   Scripted.ev 500000 300000 "a1" 0 2;
   Scripted.ev 500000 900000 "a1 b" 0 4;
   Scripted.ev 700000 300000 "a2" 0 2].

Definition tied_result : list TextToSpeech.word_boundary :=
  [TextToSpeech.word_boundary_of (Scripted.ev 500000 300000 "a1" 0 2);
   TextToSpeech.word_boundary_of (Scripted.ev 700000 300000 "a2" 0 2);
   TextToSpeech.word_boundary_of (Scripted.ev 3000000 250000 "b" 4 1)].

(** The log of a synthesis of "a b" to "o.mp3" that fires [tied_events]
    and ends with [got]. *)
Definition tied_log (got : outcome SpeechSynthesisResult) : list event :=
  [EvConfig "SPEECH_KEY"; EvConfig "SERVICE_REGION";
   EvSpeechConfig "k-speech" "westeurope"; EvAudioOutputConfig "o.mp3";
   EvSpeechSynthesizer (TextToSpeech.final_config "k-speech" "westeurope")
                       {| filename := "o.mp3" |};
   EvSpeakSsml (TextToSpeech.final_config "k-speech" "westeurope")
               {| filename := "o.mp3" |}
               (TextToSpeech.ssml_of "en-US-AvaNeural" "a b")
               tied_events got].

Definition ok_response (status : Z) : response :=
  {| status_code := status; response_json := Ret (JString "hello") |}.

(** Every vendor answers. *)
Definition fine : world :=
  {| env := Scripted.full_env; iam := Ret "t1"; analysed := Ret (JString "done");
     opened := Ret "ID3"; posted := Ret (ok_response 200);
     constructed := Ret tt; fired := tied_events; spoke := Ret Scripted.completed |}.

Definition with_env (e : gmap string string) (w : world) : world :=
  {| env := e; iam := iam w; analysed := analysed w; opened := opened w;
     posted := posted w; constructed := constructed w; fired := fired w;
     spoke := spoke w |}.

(** The store lacks one key. *)
Definition without (key : string) : world := with_env (delete key Scripted.full_env) fine.

(** IAM rejects the key. *)
Definition iam_down : world :=
  {| env := Scripted.full_env; iam := Raise (VendorError "401"); analysed := analysed fine;
     opened := opened fine; posted := posted fine; constructed := Ret tt;
     fired := tied_events; spoke := Ret Scripted.completed |}.

(** The audio file is not there. *)
Definition no_file : world :=
  {| env := Scripted.full_env; iam := Ret "t1"; analysed := analysed fine;
     opened := Raise (OSError "a.mp3"); posted := posted fine; constructed := Ret tt;
     fired := tied_events; spoke := Ret Scripted.completed |}.

(** The synthesis is refused after two events were fired. *)
Definition speech_down : world :=
  {| env := Scripted.full_env; iam := Ret "t1"; analysed := analysed fine;
     opened := opened fine; posted := posted fine; constructed := Ret tt;
     fired := tied_events; spoke := Raise (VendorError "canceled") |}.

(** The synthesis is canceled by the service: [speak_ssml] returns a
    result that says so, nothing was fired and there is no audio. *)
Definition nothing_rendered : SpeechSynthesisResult :=
  {| reason := Canceled; audio_data := EmptyString |}.

Definition canceled : world :=
  {| env := Scripted.full_env; iam := Ret "t1"; analysed := analysed fine;
     opened := opened fine; posted := posted fine; constructed := Ret tt;
     fired := []; spoke := Ret nothing_rendered |}.

(** The log of a synthesis of "a b" to "o.mp3" in [canceled]. *)
Definition canceled_log : list event :=
  [EvConfig "SPEECH_KEY"; EvConfig "SERVICE_REGION";
   EvSpeechConfig "k-speech" "westeurope"; EvAudioOutputConfig "o.mp3";
   EvSpeechSynthesizer (TextToSpeech.final_config "k-speech" "westeurope")
                       {| filename := "o.mp3" |};
   EvSpeakSsml (TextToSpeech.final_config "k-speech" "westeurope")
               {| filename := "o.mp3" |}
               (TextToSpeech.ssml_of "en-US-AvaNeural" "a b")
               [] (Ret nothing_rendered)].

(** A store whose URLs end in slashes, and one whose NLU URL is quoted. *)
Definition slashed_env : gmap string string :=
  <[ "NLP_BASE_URL" := "https://nlu.example//" ]>
    (<[ "TTS_BASE_URL" := "https://tts.example/" ]> Scripted.full_env).

Definition quoted_env : gmap string string :=
  <[ "NLP_BASE_URL" := double_quote +:+ "https://nlu.example" +:+ double_quote ]>
    Scripted.full_env.

(** An object that already holds a token. *)
Definition st (w : world) : world * IbmTextAnalysis.IBM_Watson := (w, Scripted.used_self).

End Replay.

(** The conclusion of C7 for one operation run from [Scripted.st0 200],
    where the object holds a stale token: the request is in the log and
    carries the new one. *)
Definition authenticates_in_st0 (op : operation) (key : string) (request : event) : Prop :=
  (exists rest,
     operation_log op (Scripted.st0 200)
     = EvConfig (api_key_name op)
       :: EvGetToken key (fst (iam_get_token key (fst (Scripted.st0 200)))) :: rest /\
     (forall tok, fst (iam_get_token key (fst (Scripted.st0 200))) = Ret tok ->
        snd (operation_state op (Scripted.st0 200)) = Scripted.authed tok) /\
     (forall e, In e rest -> is_vendor_request e = true ->
        exists tok, fst (iam_get_token key (fst (Scripted.st0 200))) = Ret tok /\
                    authorization_of e = Some ("Bearer " +:+ tok))) /\
  last (operation_log op (Scripted.st0 200)) = Some request /\
  authorization_of request = Some "Bearer token".

(** * Facts about the Python primitives *)

Section SortedFacts.
Context {A : Type} (key : A -> Z).

Lemma insert_by_key_Permutation (x : A) (l : list A) :
  Permutation (insert_by_key key x l) (x :: l).
Proof.
  induction l as [|y l IH]; simpl; [reflexivity|].
  destruct (key y <? key x).
  - rewrite IH. apply perm_swap.
  - reflexivity.
Qed.

Lemma sorted_Permutation (l : list A) : Permutation (sorted key l) l.
Proof.
  induction l as [|x l IH]; simpl; [reflexivity|].
  rewrite insert_by_key_Permutation. now constructor.
Qed.

Lemma insert_by_key_HdRel (x a : A) (l : list A) :
  by_key key a x -> HdRel (by_key key) a l ->
  HdRel (by_key key) a (insert_by_key key x l).
Proof.
  intros Hax Hl. destruct l as [|y l]; simpl.
  - now constructor.
  - destruct (key y <? key x); constructor; auto.
    now inversion Hl.
Qed.

Lemma insert_by_key_Sorted (x : A) (l : list A) :
  Sorted (by_key key) l -> Sorted (by_key key) (insert_by_key key x l).
Proof.
  induction l as [|y l IH]; simpl; intros Hs.
  - repeat constructor.
  - destruct (Z.ltb_spec (key y) (key x)) as [Hlt|Hge].
    + inversion Hs; subst. constructor; [auto|].
      apply insert_by_key_HdRel; [unfold by_key; lia | assumption].
    + constructor; [assumption|]. constructor. unfold by_key. lia.
Qed.

Lemma sorted_Sorted (l : list A) : Sorted (by_key key) (sorted key l).
Proof.
  induction l as [|x l IH]; simpl; [constructor|].
  now apply insert_by_key_Sorted.
Qed.

(** Stability: records of equal key keep the order they came in. *)
Lemma insert_by_key_stable (k : Z) (x : A) (l : list A) :
  Sorted (by_key key) l ->
  List.filter (fun a => key a =? k) (insert_by_key key x l)
  = List.filter (fun a => key a =? k) (x :: l).
Proof.
  induction l as [|y l IH]; intros Hs; [reflexivity|].
  simpl. destruct (Z.ltb_spec (key y) (key x)) as [Hlt|Hge]; [|reflexivity].
  inversion Hs; subst. simpl. rewrite IH by assumption. simpl.
  destruct (Z.eqb_spec (key y) k), (Z.eqb_spec (key x) k); try reflexivity; lia.
Qed.

Lemma sorted_stable (k : Z) (l : list A) :
  List.filter (fun a => key a =? k) (sorted key l)
  = List.filter (fun a => key a =? k) l.
Proof.
  induction l as [|x l IH]; [reflexivity|].
  simpl sorted. rewrite insert_by_key_stable by apply sorted_Sorted.
  simpl. now rewrite IH.
Qed.
End SortedFacts.

Section StrFacts.

Lemma str_in_space (s : string) : str_in " " s = true <-> has_char " " s.
Proof.
  unfold has_char.
  induction s as [|c s IH]; cbn [str_in String.prefix list_ascii_of_string In].
  - split; [discriminate | tauto].
  - destruct (ascii_dec " " c) as [Heq|Hne].
    + replace (String.prefix EmptyString s) with true by (now destruct s).
      split; auto.
    + rewrite IH. split; [auto|]. intros [H|H]; [congruence | assumption].
Qed.

Lemma str_split_not_nil (sep : ascii) (s : string) : str_split sep s <> [].
Proof.
  destruct s as [|c s]; simpl; [discriminate|].
  destruct (Ascii.eqb c sep); [discriminate|].
  destruct (str_split sep s); discriminate.
Qed.




(** Joining the pieces with the separator gives the text back. *)
Lemma str_join_split (sep : ascii) (s : string) :
  str_join (String sep EmptyString) (str_split sep s) = s.
Proof.
  induction s as [|c s IH]; [reflexivity|]. simpl.
  destruct (Ascii.eqb_spec c sep) as [->|Hne].
  - pose proof (str_split_not_nil sep s) as Hnn.
    destruct (str_split sep s) as [|p ps]; [congruence|].
    simpl in *. now rewrite IH.
  - pose proof (str_split_not_nil sep s) as Hnn.
    destruct (str_split sep s) as [|p [|q ps]]; [congruence| |]; simpl in *;
      now rewrite <- IH.
Qed.

(** No piece contains the separator. *)
Lemma str_split_pieces (sep : ascii) (s : string) :
  Forall (fun p => ~ has_char sep p) (str_split sep s).
Proof.
  unfold has_char. induction s as [|c s IH]; simpl.
  - repeat constructor. simpl. tauto.
  - destruct (Ascii.eqb_spec c sep) as [->|Hne].
    + constructor; [simpl; tauto | exact IH].
    + destruct (str_split sep s) as [|p ps].
      * repeat constructor. simpl. intros [H|[]]. congruence.
      * inversion IH; subst. constructor; [|assumption].
        simpl. intros [H|H]; [congruence | tauto].
Qed.
End StrFacts.

(** * [json.dumps] and [int / int] on small inputs *)

Section Examples.

Example dumps_string :
  json_dumps_indent2 (JString "done") = double_quote +:+ "done" +:+ double_quote.
Proof. reflexivity. Qed.

Example dumps_object :
  json_dumps_indent2 (JObject [("language", JString "en"); ("ids", JArray [JInt 1; JInt (-20)]);
                               ("none", JArray [])])
  = "{" +:+ line_feed
    +:+ "  " +:+ double_quote +:+ "language" +:+ double_quote +:+ ": "
    +:+ double_quote +:+ "en" +:+ double_quote +:+ "," +:+ line_feed
    +:+ "  " +:+ double_quote +:+ "ids" +:+ double_quote +:+ ": [" +:+ line_feed
    +:+ "    1," +:+ line_feed
    +:+ "    -20" +:+ line_feed
    +:+ "  ]," +:+ line_feed
    +:+ "  " +:+ double_quote +:+ "none" +:+ double_quote +:+ ": []" +:+ line_feed
    +:+ "}".
Proof. reflexivity. Qed.

(** A quote, a line feed and the two bytes of U+00E9. *)
Example dumps_escapes :
  json_dumps_indent2
    (JString (double_quote +:+ line_feed
              +:+ String (ascii_of_nat 195) (String (ascii_of_nat 169) EmptyString)))
  = double_quote +:+ backslash +:+ double_quote +:+ backslash +:+ "n"
    +:+ backslash +:+ "u00e9" +:+ double_quote.
Proof. reflexivity. Qed.

(** [5001 / 10000] is the double 0x1.000d1b71758e2p-1, and
    [10005000 / 10000] is 1000.5. *)
Example truediv_5001 :
  int_truediv 5001 10000 = S754_finite false 4504500347295970 (-53).
Proof. reflexivity. Qed.

Example truediv_10005000 :
  (float_value (int_truediv 10005000 10000) == 2001 # 2)%Q.
Proof. reflexivity. Qed.

Example rstrip_slashes :
  IbmTextAnalysis.rstrip "/" "https://nlu.example//" = "https://nlu.example"
  /\ IbmTextAnalysis.rstrip "/" "/a/b/" = "/a/b"
  /\ IbmTextAnalysis.rstrip "/" "//" = EmptyString.
Proof. repeat split. Qed.

End Examples.

(** * Facts about the monad *)

Section MonadFacts.
Context {S A B : Type}.

(** A sequence returns only if its first part returned. *)
Lemma bind_Ret (m : M S A) (k : A -> M S B) s b s' log :
  bind m k s = (Ret b, s', log) ->
  exists a s1 log1 log2,
    m s = (Ret a, s1, log1) /\ k a s1 = (Ret b, s', log2) /\ log = log1 ++ log2.
Proof.
  unfold bind. destruct (m s) as [[[a|e] s1] log1]; [|discriminate].
  destruct (k a s1) as [[r s2] log2] eqn:Hk. intros [= -> -> <-].
  now exists a, s1, log1, log2.
Qed.

(** The log of a sequence starts with the log of its first part. *)
Lemma bind_log (m : M S A) (k : A -> M S B) s :
  exists rest, log_of (bind m k) s = log_of m s ++ rest.
Proof.
  unfold log_of, bind. destruct (m s) as [[[a|e] s1] log1]; simpl.
  - destruct (k a s1) as [[r s2] log2]. now exists log2.
  - exists []. now rewrite app_nil_r.
Qed.
End MonadFacts.

(** * text_to_speech.py: properties *)

Module SpeechFacts.
Import TextToSpeech.

Lemma module_globals_speechsdk :
  module_globals !! "speechsdk" = Some (ModuleObj "azure.cognitiveservices.speech").
Proof. reflexivity. Qed.

Lemma module_globals_config : module_globals !! "config" = None.
Proof. reflexivity. Qed.

Lemma module_globals_with_config_config :
  module_globals_with_config !! "config" = Some DecoupleConfig.
Proof. reflexivity. Qed.

(** One connected callback: the cell ends up with one record per event,
    in the order the events were fired. *)
Lemma fold_callback (fired : list WordBoundaryEventArgs) (cell : list word_boundary) :
  fold_left (fun acc evt => speech_synthesizer_word_boundary_cb evt acc) fired cell
  = cell ++ map word_boundary_of fired.
Proof.
  revert cell. induction fired as [|evt fired IH]; intros cell; simpl.
  - now rewrite app_nil_r.
  - rewrite IH. unfold speech_synthesizer_word_boundary_cb.
    now rewrite <- app_assoc.
Qed.

Section Run.
Context {W : Type} `{V : Vendor W}.

(** The whole of a call that returns: its log and its result. *)
Lemma create_speech_from_text_returns g text fn w l w' log :
  create_speech_from_text g text fn w = (Ret l, w', log) ->
  exists sub reg fired res,
    log = [EvConfig "SPEECH_KEY"; EvConfig "SERVICE_REGION";
           EvSpeechConfig sub reg; EvAudioOutputConfig fn;
           EvSpeechSynthesizer (final_config sub reg) {| filename := fn |};
           EvSpeakSsml (final_config sub reg) {| filename := fn |}
                       (ssml_of "en-US-AvaNeural" text) fired (Ret res)]
    /\ l = sorted text_offset (List.filter keeps (map word_boundary_of fired)).
Proof.
  unfold create_speech_from_text, load_global.
  destruct (g !! "speechsdk") as [sdk|]; [|discriminate].
  destruct (g !! "config") as [[| |]|]; try discriminate.
  unfold call1, config, mk_SpeechConfig, mk_AudioOutputConfig,
    mk_SpeechSynthesizer, speak_ssml.
  unfold bind, vendor_read, vendor_call, ret, raise,
    set_property, set_speech_synthesis_output_format, set_voice_name.
  simpl.
  destruct (decouple_config "SPEECH_KEY" w) as [sub|]; [|discriminate].
  destruct (decouple_config "SERVICE_REGION" w) as [reg|]; [|discriminate].
  destruct (new_SpeechConfig sub reg w) as [[]|]; [|discriminate].
  destruct (new_AudioOutputConfig fn w) as [[]|]; [|discriminate].
  fold (final_config sub reg).
  match goal with |- context [new_SpeechSynthesizer ?c ?a w] =>
    destruct (new_SpeechSynthesizer c a w) as [[[]|] w1]; [|discriminate] end.
  match goal with |- context [azure_speak_ssml ?c ?a ?x w1] =>
    destruct (azure_speak_ssml c a x w1) as [[fired [res|]] w2]; [|discriminate] end.
  intros [= <- <- <-]. exists sub, reg, fired, res. split; [reflexivity|].
  unfold deliver, connect. simpl.
  now rewrite (fold_callback fired []).
Qed.

Lemma collected_of_run sub reg fn ssml fired got :
  collected [EvConfig "SPEECH_KEY"; EvConfig "SERVICE_REGION";
             EvSpeechConfig sub reg; EvAudioOutputConfig fn;
             EvSpeechSynthesizer (final_config sub reg) {| filename := fn |};
             EvSpeakSsml (final_config sub reg) {| filename := fn |} ssml fired got]
  = map word_boundary_of fired.
Proof. unfold collected. simpl. rewrite fold_callback. now rewrite app_nil_r. Qed.

(** Adjacent elements of a sorted list are in order. *)
Lemma Sorted_adjacent {A} (R : A -> A -> Prop) (l : list A) :
  Sorted R l ->
  forall (i : nat) a b, l !! i = Some a -> l !! Datatypes.S i = Some b -> R a b.
Proof.
  induction 1 as [|x l Hs IH Hd]; intros i a b Ha Hb; [discriminate|].
  destruct i as [|i]; simpl in *.
  - injection Ha as ->. destruct l as [|y l]; [discriminate|].
    simpl in Hb. injection Hb as ->. now inversion Hd.
  - eapply IH; eassumption.
Qed.

(** C1.  Whenever [create_speech_from_text] returns a list, no record of
    the list has a space in its [text], and every record the callback
    collected whose [text] has no space is in the list. *)
Theorem create_speech_from_text_drops_spaces g txt fn w l w' log :
  create_speech_from_text g txt fn w = (Ret l, w', log) ->
  Forall (fun r => ~ has_char " " (text r)) l /\
  (forall r, In r (collected log) -> ~ has_char " " (text r) -> In r l).
Proof.
  intros Hrun.
  destruct (create_speech_from_text_returns _ _ _ _ _ _ _ Hrun)
    as (sub & reg & fired & res & -> & ->).
  rewrite collected_of_run. split.
  - apply List.Forall_forall. intros r Hr.
    apply (Permutation_in _ (sorted_Permutation text_offset _)) in Hr.
    apply filter_In in Hr as [_ Hk]. unfold keeps in Hk.
    rewrite <- str_in_space. destruct (str_in " " (text r)); [discriminate | auto].
  - intros r Hr Hno.
    apply (Permutation_in _ (Permutation_sym (sorted_Permutation text_offset _))).
    apply filter_In. split; [assumption|]. unfold keeps.
    rewrite <- str_in_space in Hno. now destruct (str_in " " (text r)).
Qed.

(** C2.  Whenever [create_speech_from_text] returns a list, each record
    of the list has a [text_offset] no greater than the next one's, and
    the list is a permutation of the collected records that pass the
    filter. *)
Theorem create_speech_from_text_sorted_by_text_offset g txt fn w l w' log :
  create_speech_from_text g txt fn w = (Ret l, w', log) ->
  (forall (i : nat) a b, l !! i = Some a -> l !! Datatypes.S i = Some b ->
                         text_offset a <= text_offset b) /\
  Permutation l (List.filter keeps (collected log)).
Proof.
  intros Hrun.
  destruct (create_speech_from_text_returns _ _ _ _ _ _ _ Hrun)
    as (sub & reg & fired & res & -> & ->).
  rewrite collected_of_run. split.
  - apply (Sorted_adjacent (by_key text_offset)). apply sorted_Sorted.
  - apply sorted_Permutation.
Qed.

(** C4.  As the module stands, every call raises [NameError] for the
    name [config] with an empty log: no speech configuration is built,
    the SDK is not called, and no list is returned. *)
Theorem create_speech_from_text_raises_NameError txt fn (w : W) :
  create_speech_from_text module_globals txt fn w
  = (Raise (NameError "config"), w, []).
Proof. reflexivity. Qed.

(** C8, as the code has it.  Whenever [create_speech_from_text] returns,
    its one [speak_ssml] was told to render in the format
    [Audio16Khz32KBitRateMonoMp3] to the file [output_filename], no other
    path was given to the SDK, and what the SDK wrote to that file is the
    audio of the result that line 66 drops, whether the synthesis
    completed or not. *)
Theorem create_speech_from_text_renders_to_output_filename g txt fn w l w' log :
  create_speech_from_text g txt fn w = (Ret l, w', log) ->
  render_targets log = [(fn, Some Audio16Khz32KBitRateMonoMp3)] /\
  Forall (fun p => p = fn) (output_paths log) /\
  exists c a ssml fired res,
    last log = Some (EvSpeakSsml c a ssml fired (Ret res)) /\
    audio_written log = [(fn, audio_data res)].
Proof.
  intros Hrun.
  destruct (create_speech_from_text_returns _ _ _ _ _ _ _ Hrun)
    as (sub & reg & fired & res & -> & _).
  split; [reflexivity|]. split; [simpl; repeat constructor|].
  exists (final_config sub reg), {| filename := fn |},
         (ssml_of "en-US-AvaNeural" txt), fired, res.
  split; reflexivity.
Qed.
End Run.

(** C8, as the specification has it: refuted by a synthesis the service
    cancels.  [speak_ssml] returns, the call returns the empty list, and
    the file holds no audio. *)
Lemma canceled_synthesis_leaves_no_audio : ~ returns_with_audio.
Proof.
  intros Hall.
  destruct (Hall Replay.world Replay.vendor module_globals_with_config "a b" "o.mp3"
                 Replay.canceled Replay.canceled [] Replay.canceled_log)
    as (_ & audio & Hne & Hwritten); [reflexivity|].
  apply Hne. now injection Hwritten.
Qed.

(** C5.  For a word one second into the audio that lasts half a second,
    the record holds the double 1000.5 where the offset in seconds is 1,
    and holds the SDK's [timedelta] itself as duration. *)
Theorem word_boundary_one_second_in :
  (float_value (audio_offset (word_boundary_of Scripted.one_second_in)) == 2001 # 2)%Q /\
  (seconds_of_ticks (evt_audio_offset Scripted.one_second_in) == 1)%Q /\
  ~ (float_value (audio_offset (word_boundary_of Scripted.one_second_in))
     == seconds_of_ticks (evt_audio_offset Scripted.one_second_in))%Q /\
  duration (word_boundary_of Scripted.one_second_in)
  = {| total_microseconds := 500000 |}.
Proof.
  repeat split; try reflexivity. intros Heq. vm_compute in Heq. discriminate Heq.
Qed.

Lemma create_speech_from_text_drops_spaces_witness :
  Forall (fun r => ~ has_char " " (text r)) Scripted.hello_result /\
  (forall r, In r (collected Scripted.hello_log) -> ~ has_char " " (text r) ->
             In r Scripted.hello_result).
Proof.
  apply (create_speech_from_text_drops_spaces module_globals_with_config
           "Hello big world" "out.mp3" (Scripted.world0 200)
           Scripted.hello_result (Scripted.world0 200) Scripted.hello_log).
  vm_compute. reflexivity.
Defined.

Lemma create_speech_from_text_sorted_by_text_offset_witness :
  (forall (i : nat) a b, Scripted.hello_result !! i = Some a ->
                         Scripted.hello_result !! Datatypes.S i = Some b ->
                         text_offset a <= text_offset b) /\
  Permutation Scripted.hello_result (List.filter keeps (collected Scripted.hello_log)).
Proof.
  apply (create_speech_from_text_sorted_by_text_offset module_globals_with_config
           "Hello big world" "out.mp3" (Scripted.world0 200)
           Scripted.hello_result (Scripted.world0 200) Scripted.hello_log).
  vm_compute. reflexivity.
Defined.

Lemma create_speech_from_text_renders_to_output_filename_witness :
  render_targets Scripted.hello_log = [("out.mp3", Some Audio16Khz32KBitRateMonoMp3)] /\
  Forall (fun p => p = "out.mp3") (output_paths Scripted.hello_log) /\
  exists c a ssml fired res,
    last Scripted.hello_log = Some (EvSpeakSsml c a ssml fired (Ret res)) /\
    audio_written Scripted.hello_log = [("out.mp3", audio_data res)].
Proof.
  apply (create_speech_from_text_renders_to_output_filename module_globals_with_config
           "Hello big world" "out.mp3" (Scripted.world0 200)
           Scripted.hello_result (Scripted.world0 200) Scripted.hello_log).
  vm_compute. reflexivity.
Defined.

End SpeechFacts.

(** * ibm_text_analysis.py: properties *)

Module WatsonFacts.
Import IbmTextAnalysis.

(** Unfolds a method down to the vendor calls it makes. *)
Ltac unfold_methods :=
  unfold get_text_concept, get_text_emotion, get_text_semantic_roles,
    get_text_sentiment, get_text_tone;
  unfold get_natural_language_service, get_speech_to_text_result,
    get_text_to_speech_service;
  unfold authenticate, analyze, config;
  unfold mk_BearerTokenAuthenticator, get_self, set_self, lift;
  unfold set_service_url, tts_set_service_url, checked_service_url;
  unfold bind, vendor_read, vendor_call, ret, raise;
  simpl.

(** Splits on the answer of the next vendor call. *)
Ltac next_call :=
  match goal with
  | |- context [decouple_config ?k ?w] =>
      let r := fresh "cfg" in destruct (decouple_config k w) as [r|] eqn:?
  | |- context [iam_get_token ?k ?w] =>
      let t := fresh "tok" in destruct (iam_get_token k w) as [[t|] ?] eqn:?
  | |- context [open_rb ?p ?w] =>
      destruct (open_rb p w) as [[?|] ?] eqn:?
  | |- context [requests_post ?u ?h ?f ?w] =>
      let r := fresh "resp" in destruct (requests_post u h f w) as [[r|] ?] eqn:?
  | |- context [nlu_analyze ?s ?q ?w] =>
      destruct (nlu_analyze s q w) as [[?|] ?] eqn:?
  | |- context [has_bad_first_or_last_char ?u] =>
      destruct (has_bad_first_or_last_char u) eqn:?
  end; simpl.

Ltac all_calls := repeat next_call.

Section Run.
Context {W : Type} `{V : Vendor W}.

Abbreviation St := (W * IBM_Watson)%type.

(** The body the five analysis methods share: get the service, send
    one request, serialise the answer.  Its log has no vendor request,
    or is the four events of a call that got as far as the request. *)
Lemma analysis_log (v : string) (req : analyze_request) (st : St) :
  let log := log_of (service <- get_natural_language_service v ;;
                     response <- analyze service req ;;
                     ret (json_dumps response)) st in
  (forall e, In e log -> is_vendor_request e = false) \/
  exists key tok w1 url,
    decouple_config "NLP_KEY" (fst st) = Ret key /\
    iam_get_token key (fst st) = (Ret tok, w1) /\
    decouple_config "NLP_BASE_URL" w1 = Ret url /\
    has_bad_first_or_last_char url = false /\
    log = [EvConfig "NLP_KEY"; EvGetToken key (Ret tok); EvConfig "NLP_BASE_URL";
           EvAnalyze {| version := v;
                        nlu_authenticator := Some {| bearer_token := tok |};
                        nlu_service_url := Some (rstrip "/" url) |} req].
Proof.
  destruct st as [w self]. unfold log_of. unfold_methods.
  destruct (decouple_config "NLP_KEY" w) as [key|] eqn:Hkey; simpl.
  2:{ left. intros x [<-|[]]. reflexivity. }
  destruct (iam_get_token key w) as [[tok|] w1] eqn:Htok; simpl.
  2:{ left. intros x [<-|[<-|[]]]; reflexivity. }
  destruct (decouple_config "NLP_BASE_URL" w1) as [url|] eqn:Hurl; simpl.
  2:{ left. intros x [<-|[<-|[<-|[]]]]; reflexivity. }
  destruct (has_bad_first_or_last_char url) eqn:Hbad; simpl.
  { left. intros x [<-|[<-|[<-|[]]]]; reflexivity. }
  right. exists key, tok, w1, url. repeat split; try assumption.
  all_calls; reflexivity.
Qed.

(** A transcription call either raises before it posts, or posts once
    and answers from that one response. *)
Lemma speech_to_text_run (file_path : string) (st : St) :
  let res := result_of (get_speech_to_text_result file_path) st in
  let log := log_of (get_speech_to_text_result file_path) st in
  (posts log = [] /\ (forall x, In x log -> is_vendor_request x = false) /\
   exists e, res = Raise e) \/
  exists key tok w1 file url r,
    decouple_config "STT_API_KEY" (fst st) = Ret key /\
    iam_get_token key (fst st) = (Ret tok, w1) /\
    log = [EvConfig "STT_API_KEY"; EvGetToken key (Ret tok);
           EvOpen file_path "rb"; EvConfig "URL";
           EvPost url (stt_headers tok) file r] /\
    res = match r with
          | Ret resp => if status_code resp =? 200 then response_json resp
                        else Ret JNull
          | Raise e => Raise e
          end.
Proof.
  destruct st as [w self]. unfold log_of, result_of. unfold_methods.
  destruct (decouple_config "STT_API_KEY" w) as [key|] eqn:Hkey; simpl.
  2:{ left. repeat split; eauto. intros x [<-|[]]. reflexivity. }
  destruct (iam_get_token key w) as [[tok|] w1] eqn:Htok; simpl.
  2:{ left. repeat split; eauto. intros x [<-|[<-|[]]]; reflexivity. }
  destruct (open_rb file_path w1) as [[file|] w2] eqn:Hopen; simpl.
  2:{ left. repeat split; eauto. intros x [<-|[<-|[<-|[]]]]; reflexivity. }
  destruct (decouple_config "URL" w2) as [url|] eqn:Hurl; simpl.
  2:{ left. repeat split; eauto. intros x [<-|[<-|[<-|[<-|[]]]]]; reflexivity. }
  right. exists key, tok, w1, file, url.
  destruct (requests_post url _ file w2) as [[resp|] w3] eqn:Hpost; simpl.
  - exists (Ret resp). repeat split; try assumption.
    + destruct (status_code resp =? 200); [|reflexivity].
      destruct (response_json resp); reflexivity.
    + destruct (status_code resp =? 200); [|reflexivity].
      destruct (response_json resp); reflexivity.
  - exists (Raise e). repeat split; assumption.
Qed.

(** C3.  A transcription call posts at most once; if the response to
    that post has a status other than 200 the call returns [None]; and
    a result other than [None] comes only with a response of status
    200. *)
Theorem get_speech_to_text_result_status file_path (st : St) res st' log :
  get_speech_to_text_result file_path st = (res, st', log) ->
  (length (posts log) <= 1)%nat /\
  (forall resp, In (Ret resp) (posts log) -> status_code resp <> 200 ->
                res = Ret JNull) /\
  (forall v, res = Ret v -> v <> JNull ->
             exists resp, In (Ret resp) (posts log) /\ status_code resp = 200).
Proof.
  intros Hrun. pose proof (speech_to_text_run file_path st) as Hshape.
  unfold result_of, log_of in Hshape. rewrite Hrun in Hshape. simpl in Hshape.
  destruct Hshape as [(Hnone & _ & e & ->)
                     |(key & tok & w1 & file & url & r & _ & _ & -> & ->)].
  - rewrite Hnone. repeat split; [simpl; lia | intros ? [] | discriminate].
  - simpl. repeat split; [lia | |].
    + intros resp [[= ->]|[]] Hne.
      destruct (Z.eqb_spec (status_code resp) 200); [contradiction | reflexivity].
    + intros v Hv Hnn. destruct r as [resp|]; [|discriminate].
      exists resp. split; [now left|].
      destruct (Z.eqb_spec (status_code resp) 200); [assumption|].
      injection Hv as <-. contradiction.
Qed.

(** In a log that ends with its only vendor request, any vendor request
    is that last event. *)
Lemma only_request_is_last (l : list event) (x : event) pre e post :
  (forall y, In y l -> is_vendor_request y = false) ->
  l ++ [x] = pre ++ e :: post ->
  is_vendor_request e = true ->
  pre = l /\ e = x /\ post = [].
Proof.
  revert pre. induction l as [|a l IH]; intros pre Hno Heq He.
  - destruct pre as [|y pre]; simpl in Heq.
    + injection Heq as <- <-. auto.
    + injection Heq as _ Heq. now destruct pre.
  - destruct pre as [|y pre]; simpl in Heq.
    + injection Heq as <- _. rewrite (Hno a) in He by now left. discriminate.
    + injection Heq as <- Heq.
      destruct (IH pre) as (-> & -> & ->); auto.
      intros z Hz. apply Hno. now right.
Qed.

(** Wherever a request stands in the log of an operation, a token was
    obtained before it in that run and the request carries it. *)
Lemma request_follows_token (op : operation) (st : St) pre e post :
  operation_log op st = pre ++ e :: post ->
  is_vendor_request e = true ->
  exists key tok w1,
    decouple_config (api_key_name op) (fst st) = Ret key /\
    iam_get_token key (fst st) = (Ret tok, w1) /\
    In (EvGetToken key (Ret tok)) pre /\
    authorization_of e = Some ("Bearer " +:+ tok).
Proof.
  intros Hlog He.
  assert (Hin : In e (operation_log op st))
    by (rewrite Hlog; apply in_or_app; right; now left).
  destruct op as [t|t|t|t|t|p]; simpl in Hlog, Hin |- *.
  6:{ destruct (speech_to_text_run p st)
        as [(_ & Hno & _)|(key & tok & w1 & file & url & r & Hk & Ht & Hl & _)].
      - rewrite (Hno e Hin) in He. discriminate.
      - rewrite Hl in Hlog.
        apply (only_request_is_last
                 [EvConfig "STT_API_KEY"; EvGetToken key (Ret tok);
                  EvOpen p "rb"; EvConfig "URL"]) in Hlog as (-> & -> & ->);
          [| intros y [<-|[<-|[<-|[<-|[]]]]]; reflexivity | assumption].
        exists key, tok, w1. repeat split; auto. simpl. auto. }
  all: match type of Hlog with
       | log_of ?m ?s = _ =>
           match eval unfold get_text_concept, get_text_emotion,
                   get_text_semantic_roles, get_text_sentiment, get_text_tone in m with
           | bind _ (fun service => bind (analyze service ?req) _) =>
               destruct (analysis_log "2022-04-07" req s)
                 as [Hno|(key & tok & w1 & url & Hk & Ht & _ & _ & Hl)]
           end
       end.
  all: try (rewrite (Hno e Hin) in He; discriminate).
  all: unfold get_text_concept, get_text_emotion, get_text_semantic_roles,
         get_text_sentiment, get_text_tone in Hlog;
       rewrite Hl in Hlog;
       apply (only_request_is_last
                [EvConfig "NLP_KEY"; EvGetToken key (Ret tok);
                 EvConfig "NLP_BASE_URL"]) in Hlog as (-> & -> & ->);
         [| intros y [<-|[<-|[<-|[]]]]; reflexivity | assumption];
       exists key, tok, w1; repeat split; auto; simpl; auto.
Qed.

(** Every analysis request of the shared body is the one it was given,
    sent through a service of the version it was given. *)
Lemma analysis_request (v : string) (req : analyze_request) (st : St) service req' :
  In (EvAnalyze service req')
     (log_of (service <- get_natural_language_service v ;;
              response <- analyze service req ;;
              ret (json_dumps response)) st) ->
  req' = req /\ version service = v.
Proof.
  intros Hin.
  destruct (analysis_log v req st) as [Hno|(key & tok & w1 & url & _ & _ & _ & _ & Hl)].
  - specialize (Hno _ Hin). discriminate.
  - rewrite Hl in Hin. simpl in Hin.
    destruct Hin as [|[|[|[[= <- <-]|[]]]]]; try discriminate. auto.
Qed.


(** Any analysis request in the log of an operation goes through a
    service of version 2022-04-07, with the language the method passes. *)
Lemma analysis_request_language (op : operation) (st : St) service req :
  In (EvAnalyze service req) (operation_log op st) ->
  version service = "2022-04-07" /\
  match op with
  | tone _ =>
      language req = None /\
      classifications (features req)
      = Some {| model := Some "tone-classifications-en-v1" |}
  | _ => language req = Some "en"
  end.
Proof.
  intros Hin. destruct op as [t|t|t|t|t|p]; simpl in Hin.
  6:{ destruct (speech_to_text_run p st)
        as [(_ & Hno & _)|(key & tok & w1 & file & url & r & _ & _ & Hl & _)].
      - specialize (Hno _ Hin). discriminate.
      - rewrite Hl in Hin. simpl in Hin.
        destruct Hin as [|[|[|[|[|[]]]]]]; discriminate. }
  all: apply analysis_request in Hin as [-> ->]; simpl; auto.
Qed.

(** Splits on what is left open in the run of an operation. *)
Ltac rest_of_run :=
  all_calls;
  repeat match goal with
         | |- context [status_code ?r =? 200] =>
             destruct (status_code r =? 200); simpl
         | |- context [response_json ?r] => destruct (response_json r); simpl
         end.

(** C7.  Every invocation of one of the six operations whose API key is
    configured calls [authenticate] with that key before anything else:
    the log starts with the lookup of the key and the token request to
    IAM; if IAM issues a token the object holds it and the authenticator
    made from it when the operation ends; and any request the operation
    sends afterwards carries this new token, whatever the object held
    before. *)
Theorem every_operation_authenticates (op : operation) (st : St) key :
  decouple_config (api_key_name op) (fst st) = Ret key ->
  exists rest,
    operation_log op st
    = EvConfig (api_key_name op)
      :: EvGetToken key (fst (iam_get_token key (fst st))) :: rest /\
    (forall tok, fst (iam_get_token key (fst st)) = Ret tok ->
       snd (operation_state op st)
       = {| authenticator := Some {| bearer_token := tok |}; token := Some tok |}) /\
    (forall e, In e rest -> is_vendor_request e = true ->
       exists tok, fst (iam_get_token key (fst st)) = Ret tok /\
                   authorization_of e = Some ("Bearer " +:+ tok)).
Proof.
  destruct st as [w self]. simpl fst. intros Hkey.
  destruct op as [t|t|t|t|t|p]; simpl in Hkey |- *;
    unfold log_of, state_after; unfold_methods; rewrite Hkey; simpl;
    destruct (iam_get_token key w) as [[tok|ex] w1]; simpl; rest_of_run;
    (eexists; split; [reflexivity|]; split;
     [ intros tok' Htok'; try discriminate Htok'; injection Htok' as <-; reflexivity
     | intros x Hin Hx; simpl in Hin;
       repeat (destruct Hin as [<-|Hin]; try discriminate Hx);
       try contradiction; eexists; split; reflexivity ]).
Qed.

(** C10.  Each of the five analysis methods, once its service is built,
    issues one analyze request through a service of version 2022-04-07:
    [get_text_tone] with no language and the classification model
    tone-classifications-en-v1, the other four with the language "en". *)
Theorem analysis_language_and_version (op : operation) (st : St) key tok w1 url :
  api_key_name op = "NLP_KEY" ->
  decouple_config "NLP_KEY" (fst st) = Ret key ->
  iam_get_token key (fst st) = (Ret tok, w1) ->
  decouple_config "NLP_BASE_URL" w1 = Ret url ->
  has_bad_first_or_last_char url = false ->
  exists service req,
    operation_log op st
    = [EvConfig "NLP_KEY"; EvGetToken key (Ret tok); EvConfig "NLP_BASE_URL";
       EvAnalyze service req] /\
    version service = "2022-04-07" /\
    match op with
    | tone _ =>
        language req = None /\
        classifications (features req)
        = Some {| model := Some "tone-classifications-en-v1" |}
    | _ => language req = Some "en"
    end.
Proof.
  destruct st as [w self]. simpl fst. intros Hop Hkey Htok Hurl Hok.
  destruct op as [t|t|t|t|t|p]; try discriminate Hop; simpl;
    unfold log_of; unfold_methods; rewrite Hkey; simpl; rewrite Htok; simpl;
    rewrite Hurl; simpl; rewrite Hok; simpl; rest_of_run;
    (eexists; eexists; split; [reflexivity|]; simpl; auto).
Qed.
End Run.

Lemma get_speech_to_text_result_status_witness :
  (length (posts (Scripted.stt_log 404)) <= 1)%nat /\
  (forall resp, In (Ret resp) (posts (Scripted.stt_log 404)) ->
                status_code resp <> 200 -> Ret JNull = Ret JNull) /\
  (forall v, Ret JNull = Ret v -> v <> JNull ->
             exists resp, In (Ret resp) (posts (Scripted.stt_log 404)) /\
                          status_code resp = 200).
Proof.
  apply (get_speech_to_text_result_status "a.mp3" (Scripted.st0 404) (Ret JNull)
           (Scripted.issue_token (Scripted.world0 404), Scripted.authed "token")
           (Scripted.stt_log 404)).
  vm_compute. reflexivity.
Defined.



Lemma every_operation_authenticates_witness :
  authenticates_in_st0 (concept "Hello") "k-nlp"
    (EvAnalyze Scripted.nlu_service (Scripted.concept_request "Hello")) /\
  authenticates_in_st0 (emotion_of "Hello") "k-nlp"
    (EvAnalyze Scripted.nlu_service (Scripted.emotion_request "Hello")) /\
  authenticates_in_st0 (semantic_roles_of "Hello") "k-nlp"
    (EvAnalyze Scripted.nlu_service (Scripted.semantic_roles_request "Hello")) /\
  authenticates_in_st0 (sentiment_of "Hello") "k-nlp"
    (EvAnalyze Scripted.nlu_service (Scripted.sentiment_request "Hello" ["Hello"])) /\
  authenticates_in_st0 (tone "Hello") "k-nlp"
    (EvAnalyze Scripted.nlu_service (Scripted.tone_request "Hello")) /\
  authenticates_in_st0 (speech_to_text "a.mp3") "k-stt"
    (EvPost "https://stt.example/recognize" (stt_headers "token") "ID3"
            (Ret {| status_code := 200;
                    response_json := Ret (JObject [("results", JArray [])]) |})).
Proof.
  repeat split;
    try (apply (every_operation_authenticates (concept "Hello") (Scripted.st0 200) "k-nlp");
         reflexivity);
    try (apply (every_operation_authenticates (emotion_of "Hello") (Scripted.st0 200)
                  "k-nlp"); reflexivity);
    try (apply (every_operation_authenticates (semantic_roles_of "Hello")
                  (Scripted.st0 200) "k-nlp"); reflexivity);
    try (apply (every_operation_authenticates (sentiment_of "Hello") (Scripted.st0 200)
                  "k-nlp"); reflexivity);
    try (apply (every_operation_authenticates (tone "Hello") (Scripted.st0 200) "k-nlp");
         reflexivity);
    try (apply (every_operation_authenticates (speech_to_text "a.mp3") (Scripted.st0 200)
                  "k-stt"); reflexivity);
    reflexivity.
Defined.

Lemma analysis_language_and_version_witness :
  (exists service req,
     operation_log (concept "Hello") (Scripted.st0 200)
     = [EvConfig "NLP_KEY"; EvGetToken "k-nlp" (Ret "token"); EvConfig "NLP_BASE_URL";
        EvAnalyze service req] /\
     version service = "2022-04-07" /\ language req = Some "en") /\
  (exists service req,
     operation_log (emotion_of "Hello") (Scripted.st0 200)
     = [EvConfig "NLP_KEY"; EvGetToken "k-nlp" (Ret "token"); EvConfig "NLP_BASE_URL";
        EvAnalyze service req] /\
     version service = "2022-04-07" /\ language req = Some "en") /\
  (exists service req,
     operation_log (semantic_roles_of "Hello") (Scripted.st0 200)
     = [EvConfig "NLP_KEY"; EvGetToken "k-nlp" (Ret "token"); EvConfig "NLP_BASE_URL";
        EvAnalyze service req] /\
     version service = "2022-04-07" /\ language req = Some "en") /\
  (exists service req,
     operation_log (sentiment_of "Hello") (Scripted.st0 200)
     = [EvConfig "NLP_KEY"; EvGetToken "k-nlp" (Ret "token"); EvConfig "NLP_BASE_URL";
        EvAnalyze service req] /\
     version service = "2022-04-07" /\ language req = Some "en") /\
  (exists service req,
     operation_log (tone "Hello") (Scripted.st0 200)
     = [EvConfig "NLP_KEY"; EvGetToken "k-nlp" (Ret "token"); EvConfig "NLP_BASE_URL";
        EvAnalyze service req] /\
     version service = "2022-04-07" /\
     language req = None /\
     classifications (features req)
     = Some {| model := Some "tone-classifications-en-v1" |}).
Proof.
  split; [|split; [|split; [|split]]].
  - apply (analysis_language_and_version (concept "Hello") (Scripted.st0 200)
             "k-nlp" "token" (Scripted.issue_token (Scripted.world0 200))
             "https://nlu.example"); reflexivity.
  - apply (analysis_language_and_version (emotion_of "Hello") (Scripted.st0 200)
             "k-nlp" "token" (Scripted.issue_token (Scripted.world0 200))
             "https://nlu.example"); reflexivity.
  - apply (analysis_language_and_version (semantic_roles_of "Hello") (Scripted.st0 200)
             "k-nlp" "token" (Scripted.issue_token (Scripted.world0 200))
             "https://nlu.example"); reflexivity.
  - apply (analysis_language_and_version (sentiment_of "Hello") (Scripted.st0 200)
             "k-nlp" "token" (Scripted.issue_token (Scripted.world0 200))
             "https://nlu.example"); reflexivity.
  - apply (analysis_language_and_version (tone "Hello") (Scripted.st0 200)
             "k-nlp" "token" (Scripted.issue_token (Scripted.world0 200))
             "https://nlu.example"); reflexivity.
Defined.

End WatsonFacts.

(** * The configuration keys of the program *)

Module ProgramFacts.
Import TextToSpeech IbmTextAnalysis Program WatsonFacts.

(** Closes [incl keys all] for two explicit lists of keys. *)
Ltac keys_included :=
  let k := fresh "k" in
  let Hk := fresh "Hk" in
  intros k Hk; simpl in Hk |- *;
  repeat (destruct Hk as [<-|Hk]; [tauto|]); destruct Hk.

(** Splits on the answer of the next call into the speech SDK. *)
Ltac next_speech_call :=
  match goal with
  | |- context [decouple_config ?k ?w] => destruct (decouple_config k w) as [?|]
  | |- context [new_SpeechConfig ?s ?r ?w] => destruct (new_SpeechConfig s r w) as [[]|]
  | |- context [new_AudioOutputConfig ?f ?w] =>
      destruct (new_AudioOutputConfig f w) as [[]|]
  | |- context [new_SpeechSynthesizer ?c ?a ?w] =>
      destruct (new_SpeechSynthesizer c a w) as [[[]|] ?]
  | |- context [azure_speak_ssml ?c ?a ?x ?w] =>
      destruct (azure_speak_ssml c a x w) as [[? [?|]] ?]
  end; simpl.

Section Run.
Context {W : Type} `{V : Vendor W}.

(** Whatever its globals, [create_speech_from_text] looks up nothing
    but its two keys. *)
Lemma create_speech_from_text_lookups g txt fn (w : W) :
  incl (config_keys_of (log_of (create_speech_from_text g txt fn) w)) azure_keys.
Proof.
  unfold log_of, create_speech_from_text, load_global.
  destruct (g !! "speechsdk") as [sdk|]; [|now intros k Hk; simpl in Hk].
  destruct (g !! "config") as [[| |]|]; try (now intros k Hk; simpl in Hk).
  unfold call1, config, mk_SpeechConfig, mk_AudioOutputConfig,
    mk_SpeechSynthesizer, speak_ssml.
  unfold bind, vendor_read, vendor_call, ret, raise. simpl.
  repeat next_speech_call; keys_included.
Qed.

Lemma watson_lookups (e : entry) g (st : W * IBM_Watson) :
  (forall t f, e <> call_create_speech_from_text t f) ->
  incl (config_keys_of (run_log g e st)) watson_keys.
Proof.
  intros Hne. destruct st as [w self].
  destruct e as [t f| | | | | | | | |]; [now destruct (Hne t f)|..];
    unfold run_log, log_of; unfold_methods; all_calls;
    repeat match goal with
           | |- context [status_code ?r =? 200] =>
               destruct (status_code r =? 200); simpl
           | |- context [response_json ?r] => destruct (response_json r); simpl
           end;
    keys_included.
Qed.

Lemma run_log_lookups (e : entry) g (st : W * IBM_Watson) :
  incl (config_keys_of (run_log g e st)) (watson_keys ++ azure_keys).
Proof.
  destruct e as [t f| | | | | | | | |].
  - apply incl_appr. apply create_speech_from_text_lookups.
  - apply incl_appl. now apply watson_lookups.
  - apply incl_appl. now apply watson_lookups.
  - apply incl_appl. now apply watson_lookups.
  - apply incl_appl. now apply watson_lookups.
  - apply incl_appl. now apply watson_lookups.
  - apply incl_appl. now apply watson_lookups.
  - apply incl_appl. now apply watson_lookups.
  - apply incl_appl. now apply watson_lookups.
  - apply incl_appl. now apply watson_lookups.
Qed.
End Run.

(** C6, as the code has it.  Every lookup names one of eight keys, the
    seven listed and TTS_BASE_URL; each of the six Watson keys is looked
    up by some call; SPEECH_KEY and SERVICE_REGION are what
    [create_speech_from_text] looks up once [config] is bound. *)
Theorem config_keys_looked_up :
  lookups_within (watson_keys ++ azure_keys) /\
  (forall k, In k watson_keys ->
     exists e, In k (config_keys_of
                       (run_log TextToSpeech.module_globals e (Scripted.st0 200)))) /\
  config_keys_of
    (run_log TextToSpeech.module_globals_with_config
             (call_create_speech_from_text "Hello big world" "out.mp3")
             (Scripted.st0 200))
  = azure_keys.
Proof.
  split; [|split].
  - intros W V g e st. apply run_log_lookups.
  - intros k Hk. simpl in Hk.
    destruct Hk as [<-|[<-|[<-|[<-|[<-|[<-|[]]]]]]].
    + exists (call_get_natural_language_service "2022-04-07"). vm_compute. auto.
    + exists (call_get_natural_language_service "2022-04-07"). vm_compute. auto.
    + exists (call_get_speech_to_text_result "a.mp3"). vm_compute. auto.
    + exists (call_get_speech_to_text_result "a.mp3"). vm_compute. auto.
    + exists call_get_text_to_speech_service. vm_compute. auto.
    + exists call_get_text_to_speech_service. vm_compute. auto.
  - reflexivity.
Qed.

(** C6, as the specification lists the keys: refuted by
    [get_text_to_speech_service], which looks up TTS_BASE_URL. *)
Lemma listed_keys_miss_TTS_BASE_URL : ~ config_keys_exactly listed_keys.
Proof.
  intros [Hwithin _].
  specialize (Hwithin Scripted.world Scripted.vendor TextToSpeech.module_globals
                      call_get_text_to_speech_service (Scripted.st0 200)
                      "TTS_BASE_URL").
  assert (Hin : In "TTS_BASE_URL"
                   (config_keys_of
                      (run_log TextToSpeech.module_globals
                               call_get_text_to_speech_service (Scripted.st0 200))))
    by (vm_compute; auto).
  apply Hwithin in Hin. simpl in Hin.
  repeat (destruct Hin as [Hin|Hin]; [discriminate Hin|]). exact Hin.
Qed.

End ProgramFacts.

(** * text_to_speech.py: further properties *)

Module SpeechMore.
Import TextToSpeech SpeechFacts.

Section SortedMore.
Context {A : Type} (key : A -> Z).

(** Sorting a list that is in order already leaves it as it is. *)
Lemma sorted_of_Sorted (l : list A) : Sorted (by_key key) l -> sorted key l = l.
Proof.
  induction 1 as [|x l Hs IH Hd]; [reflexivity|].
  simpl. rewrite IH. destruct Hd as [|y l Hxy]; [reflexivity|].
  simpl. unfold by_key in Hxy.
  destruct (Z.ltb_spec (key y) (key x)); [lia | reflexivity].
Qed.

Lemma filter_all (f : A -> bool) (l : list A) :
  Forall (fun a => f a = true) l -> List.filter f l = l.
Proof.
  induction 1 as [|x l Hx _ IH]; [reflexivity|]. simpl. now rewrite Hx, IH.
Qed.
End SortedMore.

(** The document of lines 54-58 is the text between two fixed strings. *)
Lemma ssml_of_text (txt : string) :
  ssml_of "en-US-AvaNeural" txt = ssml_prefix +:+ txt +:+ ssml_suffix.
Proof. reflexivity. Qed.

Lemma length_append (a b : string) :
  String.length (a +:+ b) = (String.length a + String.length b)%nat.
Proof. induction a as [|c a IH]; simpl; [reflexivity | now rewrite IH]. Qed.

Section Run.
Context {W : Type} `{V : Vendor W}.

(** X1.  With [speechsdk] and [config] bound and every vendor step up to
    [speak_ssml] succeeding, the call ends as [speak_ssml] does: if that
    returns, with the records of the fired events, filtered and sorted;
    if it raises, with its exception, the records lost.  Either way the
    log is the six calls in source order. *)
Theorem create_speech_from_text_runs g txt fn (w w1 w2 : W) sdk sub reg evts r :
  g !! "speechsdk" = Some sdk ->
  g !! "config" = Some DecoupleConfig ->
  decouple_config "SPEECH_KEY" w = Ret sub ->
  decouple_config "SERVICE_REGION" w = Ret reg ->
  new_SpeechConfig sub reg w = Ret tt ->
  new_AudioOutputConfig fn w = Ret tt ->
  new_SpeechSynthesizer (final_config sub reg) {| filename := fn |} w = (Ret tt, w1) ->
  azure_speak_ssml (final_config sub reg) {| filename := fn |}
                   (ssml_of "en-US-AvaNeural" txt) w1 = (evts, r, w2) ->
  create_speech_from_text g txt fn w
  = (match r with
     | Ret _ => Ret (sorted text_offset (List.filter keeps (map word_boundary_of evts)))
     | Raise e => Raise e
     end,
     w2,
     [EvConfig "SPEECH_KEY"; EvConfig "SERVICE_REGION";
      EvSpeechConfig sub reg; EvAudioOutputConfig fn;
      EvSpeechSynthesizer (final_config sub reg) {| filename := fn |};
      EvSpeakSsml (final_config sub reg) {| filename := fn |}
                  (ssml_of "en-US-AvaNeural" txt) evts r]).
Proof.
  intros Hsdk Hcfg Hsub Hreg Hsc Hac Hsy Hsp.
  unfold create_speech_from_text, load_global. rewrite Hsdk, Hcfg.
  unfold call1, config, mk_SpeechConfig, mk_AudioOutputConfig,
    mk_SpeechSynthesizer, speak_ssml.
  unfold bind, vendor_read, vendor_call, ret, raise,
    set_property, set_speech_synthesis_output_format, set_voice_name.
  simpl. rewrite Hsub, Hreg, Hsc, Hac. simpl.
  fold (final_config sub reg). rewrite Hsy. simpl. rewrite Hsp.
  destruct r as [res|e]; [|reflexivity].
  unfold deliver, connect. simpl. now rewrite (fold_callback evts []).
Qed.

(** X2.  With [speechsdk] and [config] bound, a store that lacks
    SPEECH_KEY or SERVICE_REGION makes the call raise what the lookup
    raised, before anything of the speech SDK is called and with the
    world as it was. *)
Theorem create_speech_from_text_missing_key g txt fn (w : W) sdk e :
  g !! "speechsdk" = Some sdk ->
  g !! "config" = Some DecoupleConfig ->
  decouple_config "SPEECH_KEY" w = Raise e \/
  (exists sub, decouple_config "SPEECH_KEY" w = Ret sub /\
               decouple_config "SERVICE_REGION" w = Raise e) ->
  result_of (create_speech_from_text g txt fn) w = Raise e /\
  state_after (create_speech_from_text g txt fn) w = w /\
  Forall (fun x => is_sdk_call x = false) (log_of (create_speech_from_text g txt fn) w).
Proof.
  intros Hsdk Hcfg Hmiss.
  unfold result_of, state_after, log_of, create_speech_from_text, load_global.
  rewrite Hsdk, Hcfg.
  unfold call1, config. unfold bind, vendor_read, ret, raise. simpl.
  destruct Hmiss as [Hsub|(sub & Hsub & Hreg)].
  - rewrite Hsub. simpl. repeat split. repeat constructor.
  - rewrite Hsub. simpl. rewrite Hreg. simpl. repeat split. repeat constructor.
Qed.

(** X3.  In the returned list, records of equal [text_offset] stand in
    the order in which their events were fired. *)
Theorem create_speech_from_text_stable g txt fn w l w' log (k : Z) :
  create_speech_from_text g txt fn w = (Ret l, w', log) ->
  List.filter (fun r => text_offset r =? k) l
  = List.filter (fun r => text_offset r =? k) (List.filter keeps (collected log)).
Proof.
  intros Hrun.
  destruct (create_speech_from_text_returns _ _ _ _ _ _ _ Hrun)
    as (sub & reg & evts & res & -> & ->).
  rewrite collected_of_run. apply sorted_stable.
Qed.

(** X4.  Every returned record is the record of a fired event, with the
    event's [text], [text_offset] and [word_length]; the list has one
    record per fired event whose text has no space. *)
Theorem create_speech_from_text_records g txt fn w l w' log :
  create_speech_from_text g txt fn w = (Ret l, w', log) ->
  exists c a ssml evts got,
    last log = Some (EvSpeakSsml c a ssml evts got) /\
    (forall r, In r l ->
       exists evt, In evt evts /\ text r = evt_text evt /\
                   text_offset r = evt_text_offset evt /\
                   word_length r = evt_word_length evt /\
                   duration r = evt_duration evt) /\
    length l = length (List.filter (fun evt => negb (str_in " " (evt_text evt))) evts) /\
    (length l <= length evts)%nat.
Proof.
  intros Hrun.
  destruct (create_speech_from_text_returns _ _ _ _ _ _ _ Hrun)
    as (sub & reg & evts & res & -> & ->).
  exists (final_config sub reg), {| filename := fn |},
         (ssml_of "en-US-AvaNeural" txt), evts, (Ret res).
  assert (Hlen : length (sorted text_offset
                           (List.filter keeps (map word_boundary_of evts)))
                 = length (List.filter (fun evt => negb (str_in " " (evt_text evt)))
                                       evts)).
  { rewrite (Permutation_length (sorted_Permutation text_offset _)).
    clear Hrun. induction evts as [|evt evts IH]; [reflexivity|].
    simpl. unfold keeps at 1. simpl.
    destruct (str_in " " (evt_text evt)); simpl; now rewrite IH. }
  split; [reflexivity|]. split; [|split].
  - intros r Hr.
    apply (Permutation_in _ (sorted_Permutation text_offset _)) in Hr.
    apply filter_In in Hr as [Hr _]. apply in_map_iff in Hr as (evt & <- & Hevt).
    exists evt. auto.
  - exact Hlen.
  - rewrite Hlen. apply List.filter_length_le.
Qed.

(** X5.  The returned list is left as it is by the filter and the sort
    of lines 67-68: filtering and sorting it again changes nothing. *)
Theorem create_speech_from_text_result_fixed g txt fn w l w' log :
  create_speech_from_text g txt fn w = (Ret l, w', log) ->
  sorted text_offset (List.filter keeps l) = l.
Proof.
  intros Hrun.
  destruct (create_speech_from_text_returns _ _ _ _ _ _ _ Hrun)
    as (sub & reg & evts & res & _ & ->).
  rewrite filter_all.
  - apply sorted_of_Sorted. apply sorted_Sorted.
  - apply List.Forall_forall. intros r Hr.
    apply (Permutation_in _ (sorted_Permutation text_offset _)) in Hr.
    now apply filter_In in Hr.
Qed.

(** X6.  Whatever way a call ends, any document it hands to [speak_ssml]
    is the caller's text, character for character, between two fixed
    strings: nothing in the text is escaped or removed, and the document
    is 207 characters longer than the text. *)
Theorem create_speech_from_text_ssml g txt fn (w : W) c a ssml evts got :
  In (EvSpeakSsml c a ssml evts got) (log_of (create_speech_from_text g txt fn) w) ->
  ssml = ssml_prefix +:+ txt +:+ ssml_suffix /\
  String.length ssml = (String.length txt + 207)%nat /\
  a = {| filename := fn |} /\
  c = final_config (subscription c) (region c).
Proof.
  assert (Hlen : String.length (ssml_prefix +:+ txt +:+ ssml_suffix)
                 = (String.length txt + 207)%nat).
  { rewrite !length_append. change (String.length ssml_prefix) with 177%nat.
    change (String.length ssml_suffix) with 30%nat. lia. }
  unfold log_of, create_speech_from_text, load_global.
  destruct (g !! "speechsdk") as [sdk|]; [|intros []].
  destruct (g !! "config") as [[| |]|]; try (now intros Hin; simpl in Hin).
  unfold call1, config, mk_SpeechConfig, mk_AudioOutputConfig,
    mk_SpeechSynthesizer, speak_ssml.
  unfold bind, vendor_read, vendor_call, ret, raise,
    set_property, set_speech_synthesis_output_format, set_voice_name. simpl.
  repeat ProgramFacts.next_speech_call; intros Hin;
    repeat (destruct Hin as [Hin|Hin]; try discriminate Hin); try contradiction;
    injection Hin as <- <- <- <- <-; rewrite ssml_of_text; auto.
Qed.
End Run.

Lemma create_speech_from_text_runs_witness :
  create_speech_from_text module_globals_with_config "a b" "o.mp3" Replay.fine
  = (Ret (sorted text_offset
            (List.filter keeps (map word_boundary_of Replay.tied_events))),
     Replay.fine, Replay.tied_log (Ret Scripted.completed)) /\
  create_speech_from_text module_globals_with_config "a b" "o.mp3" Replay.speech_down
  = (Raise (VendorError "canceled"), Replay.speech_down,
     Replay.tied_log (Raise (VendorError "canceled"))).
Proof.
  split.
  - apply (create_speech_from_text_runs module_globals_with_config "a b" "o.mp3"
             Replay.fine Replay.fine Replay.fine
             (ModuleObj "azure.cognitiveservices.speech") "k-speech" "westeurope"
             Replay.tied_events (Ret Scripted.completed)); reflexivity.
  - apply (create_speech_from_text_runs module_globals_with_config "a b" "o.mp3"
             Replay.speech_down Replay.speech_down Replay.speech_down
             (ModuleObj "azure.cognitiveservices.speech") "k-speech" "westeurope"
             Replay.tied_events (Raise (VendorError "canceled"))); reflexivity.
Defined.

Lemma create_speech_from_text_missing_key_witness :
  result_of (create_speech_from_text module_globals_with_config "a b" "o.mp3")
            (Replay.without "SERVICE_REGION")
  = Raise (UndefinedValueError "SERVICE_REGION") /\
  state_after (create_speech_from_text module_globals_with_config "a b" "o.mp3")
              (Replay.without "SERVICE_REGION")
  = Replay.without "SERVICE_REGION" /\
  Forall (fun x => is_sdk_call x = false)
         (log_of (create_speech_from_text module_globals_with_config "a b" "o.mp3")
                 (Replay.without "SERVICE_REGION")).
Proof.
  apply (create_speech_from_text_missing_key module_globals_with_config "a b" "o.mp3"
           (Replay.without "SERVICE_REGION")
           (ModuleObj "azure.cognitiveservices.speech")
           (UndefinedValueError "SERVICE_REGION")); [reflexivity | reflexivity |].
  right. exists "k-speech". split; reflexivity.
Defined.

Lemma create_speech_from_text_stable_witness :
  List.filter (fun r => text_offset r =? 0) Replay.tied_result
  = List.filter (fun r => text_offset r =? 0)
                (List.filter keeps (collected (Replay.tied_log (Ret Scripted.completed)))).
Proof.
  apply (create_speech_from_text_stable module_globals_with_config "a b" "o.mp3"
           Replay.fine Replay.tied_result Replay.fine (Replay.tied_log (Ret Scripted.completed)) 0).
  vm_compute. reflexivity.
Defined.

Lemma create_speech_from_text_records_witness :
  exists c a ssml evts got,
    last (Replay.tied_log (Ret Scripted.completed))
    = Some (EvSpeakSsml c a ssml evts got) /\
    (forall r, In r Replay.tied_result ->
       exists evt, In evt evts /\ text r = evt_text evt /\
                   text_offset r = evt_text_offset evt /\
                   word_length r = evt_word_length evt /\
                   duration r = evt_duration evt) /\
    length Replay.tied_result
    = length (List.filter (fun evt => negb (str_in " " (evt_text evt))) evts) /\
    (length Replay.tied_result <= length evts)%nat.
Proof.
  apply (create_speech_from_text_records module_globals_with_config "a b" "o.mp3"
           Replay.fine Replay.tied_result Replay.fine (Replay.tied_log (Ret Scripted.completed))).
  vm_compute. reflexivity.
Defined.

Lemma create_speech_from_text_result_fixed_witness :
  sorted text_offset (List.filter keeps Replay.tied_result) = Replay.tied_result.
Proof.
  apply (create_speech_from_text_result_fixed module_globals_with_config "a b" "o.mp3"
           Replay.fine Replay.tied_result Replay.fine (Replay.tied_log (Ret Scripted.completed))).
  vm_compute. reflexivity.
Defined.

Lemma create_speech_from_text_ssml_witness :
  ssml_of "en-US-AvaNeural" "a < b & c" = ssml_prefix +:+ "a < b & c" +:+ ssml_suffix /\
  String.length (ssml_of "en-US-AvaNeural" "a < b & c")
  = (String.length "a < b & c" + 207)%nat /\
  {| filename := "o.mp3" |} = {| filename := "o.mp3" |} /\
  final_config "k-speech" "westeurope"
  = final_config (subscription (final_config "k-speech" "westeurope"))
                 (region (final_config "k-speech" "westeurope")).
Proof.
  apply (create_speech_from_text_ssml module_globals_with_config "a < b & c" "o.mp3"
           Replay.fine (final_config "k-speech" "westeurope") {| filename := "o.mp3" |}
           (ssml_of "en-US-AvaNeural" "a < b & c") Replay.tied_events
           (Ret Scripted.completed)).
  vm_compute. auto 10.
Defined.

End SpeechMore.

(** * ibm_text_analysis.py: further properties *)

Module WatsonMore.
Import IbmTextAnalysis WatsonFacts Runs.

Section Run.
Context {W : Type} `{V : Vendor W}.

Abbreviation St := (W * IBM_Watson)%type.

(** X8.  With NLP_KEY configured and a token issued,
    [get_natural_language_service] ends as the lookup of NLP_BASE_URL and
    [set_service_url] do: if the lookup raises, so does the method; if
    the URL starts or ends with a curly bracket or a double quote, the
    method raises the SDK's [ValueError]; otherwise it returns a client
    of the requested version that carries the new token and the URL
    without its trailing slashes.  In all three cases the object holds
    the new token afterwards. *)
Theorem get_natural_language_service_runs v (w w1 : W) self key tok r :
  decouple_config "NLP_KEY" w = Ret key ->
  iam_get_token key w = (Ret tok, w1) ->
  decouple_config "NLP_BASE_URL" w1 = r ->
  get_natural_language_service v (w, self)
  = (match r with
     | Ret url =>
         if has_bad_first_or_last_char url then Raise service_url_error
         else Ret {| version := v;
                     nlu_authenticator := Some {| bearer_token := tok |};
                     nlu_service_url := Some (rstrip "/" url) |}
     | Raise e => Raise e
     end,
     (w1, {| authenticator := Some {| bearer_token := tok |}; token := Some tok |}),
     [EvConfig "NLP_KEY"; EvGetToken key (Ret tok); EvConfig "NLP_BASE_URL"]).
Proof.
  intros Hkey Htok Hurl. unfold_methods. rewrite Hkey. simpl. rewrite Htok. simpl.
  rewrite Hurl. destruct r as [url|e]; [|reflexivity]. simpl.
  now destruct (has_bad_first_or_last_char url).
Qed.

(** X9.  [get_text_to_speech_service] takes its API key from TTS_API_KE
    and its URL from TTS_BASE_URL: with the key configured and a token
    issued it raises what the lookup of TTS_BASE_URL raised, or the SDK's
    [ValueError] for a URL that starts or ends with a curly bracket or a
    double quote, or returns a client with the new token and the URL
    without its trailing slashes; it sends no request. *)
Theorem get_text_to_speech_service_runs (w w1 : W) self key tok r :
  decouple_config "TTS_API_KE" w = Ret key ->
  iam_get_token key w = (Ret tok, w1) ->
  decouple_config "TTS_BASE_URL" w1 = r ->
  get_text_to_speech_service (w, self)
  = (match r with
     | Ret url =>
         if has_bad_first_or_last_char url then Raise service_url_error
         else Ret {| tts_authenticator := Some {| bearer_token := tok |};
                     tts_service_url := Some (rstrip "/" url) |}
     | Raise e => Raise e
     end,
     (w1, {| authenticator := Some {| bearer_token := tok |}; token := Some tok |}),
     [EvConfig "TTS_API_KE"; EvGetToken key (Ret tok); EvConfig "TTS_BASE_URL"]).
Proof.
  intros Hkey Htok Hurl. unfold_methods. rewrite Hkey. simpl. rewrite Htok. simpl.
  rewrite Hurl. destruct r as [url|e]; [|reflexivity]. simpl.
  now destruct (has_bad_first_or_last_char url).
Qed.

(** X10.  Each of the five analysis methods, once its client is built
    (key and URL configured, token issued, URL accepted by the SDK),
    sends one request for the text it was given and ends as that request
    does: it returns [json.dumps] of the answer, or raises what the
    request raised.  The object keeps the new token in both cases. *)
Theorem analysis_method_runs m (Hm : analysis_method m) txt (w w1 : W) self key tok url :
  decouple_config "NLP_KEY" w = Ret key ->
  iam_get_token key w = (Ret tok, w1) ->
  decouple_config "NLP_BASE_URL" w1 = Ret url ->
  has_bad_first_or_last_char url = false ->
  exists req,
    text req = txt /\
    forall r w2,
      nlu_analyze {| version := "2022-04-07";
                     nlu_authenticator := Some {| bearer_token := tok |};
                     nlu_service_url := Some (rstrip "/" url) |} req w1 = (r, w2) ->
      m txt (w, self)
      = (match r with
         | Ret answer => Ret (json_dumps answer)
         | Raise e => Raise e
         end,
         (w2, {| authenticator := Some {| bearer_token := tok |}; token := Some tok |}),
         [EvConfig "NLP_KEY"; EvGetToken key (Ret tok); EvConfig "NLP_BASE_URL";
          EvAnalyze {| version := "2022-04-07";
                       nlu_authenticator := Some {| bearer_token := tok |};
                       nlu_service_url := Some (rstrip "/" url) |} req]).
Proof.
  intros Hkey Htok Hurl Hok.
  destruct Hm; eexists; (split; [|intros r w2 Hreq]);
    try (unfold_methods; rewrite Hkey; simpl; rewrite Htok; simpl; rewrite Hurl;
         simpl; rewrite Hok; simpl; rewrite Hreq; now destruct r);
    reflexivity.
Qed.

(** X11.  With STT_API_KEY and URL configured, a token issued and the
    file opened, [get_speech_to_text_result] posts the file's contents
    once, to the configured URL, under the new token and with content
    type audio/mp3, and ends as the post does: on status 200 with what
    [response.json()] gives (its exception included), on any other status
    with [None], and with the post's exception if it raises. *)
Theorem get_speech_to_text_result_runs p (w w1 w2 w3 : W) self key tok file url r :
  decouple_config "STT_API_KEY" w = Ret key ->
  iam_get_token key w = (Ret tok, w1) ->
  open_rb p w1 = (Ret file, w2) ->
  decouple_config "URL" w2 = Ret url ->
  requests_post url (stt_headers tok) file w2 = (r, w3) ->
  get_speech_to_text_result p (w, self)
  = (match r with
     | Ret resp => if status_code resp =? 200 then response_json resp else Ret JNull
     | Raise e => Raise e
     end,
     (w3, {| authenticator := Some {| bearer_token := tok |}; token := Some tok |}),
     [EvConfig "STT_API_KEY"; EvGetToken key (Ret tok); EvOpen p "rb";
      EvConfig "URL"; EvPost url (stt_headers tok) file r]).
Proof.
  intros Hkey Htok Hopen Hurl Hpost. unfold stt_headers in *.
  unfold_methods. rewrite Hkey. simpl. rewrite Htok. simpl. rewrite Hopen. simpl.
  rewrite Hurl. simpl. rewrite Hpost. destruct r as [resp|e]; [|reflexivity].
  simpl. destruct (status_code resp =? 200); [|reflexivity].
  now destruct (response_json resp).
Qed.

(** X12.  If the audio file cannot be opened, [get_speech_to_text_result]
    raises the error of [open]: nothing is posted and URL is not looked
    up, but the token was requested before and the object holds it. *)
Theorem get_speech_to_text_result_no_file p (w w1 w2 : W) self key tok e :
  decouple_config "STT_API_KEY" w = Ret key ->
  iam_get_token key w = (Ret tok, w1) ->
  open_rb p w1 = (Raise e, w2) ->
  get_speech_to_text_result p (w, self)
  = (Raise e,
     (w2, {| authenticator := Some {| bearer_token := tok |}; token := Some tok |}),
     [EvConfig "STT_API_KEY"; EvGetToken key (Ret tok); EvOpen p "rb"]).
Proof.
  intros Hkey Htok Hopen.
  unfold_methods. rewrite Hkey. simpl. rewrite Htok. simpl. now rewrite Hopen.
Qed.

Lemma length_str_split (sep : ascii) (s : string) :
  length (str_split sep s) = Datatypes.S (count_char sep s).
Proof.
  induction s as [|c s IH]; [reflexivity|]. simpl.
  destruct (Ascii.eqb c sep); simpl; [now rewrite IH|].
  destruct (str_split sep s); simpl in *; [discriminate | exact IH].
Qed.

(** X13.  The targets [get_text_sentiment] sends are one more than the
    text has periods, none of them contains a period, and joined with
    periods they are the text again. *)
Theorem get_text_sentiment_targets_rebuild txt (st : St) service req :
  In (EvAnalyze service req) (log_of (get_text_sentiment txt) st) ->
  exists ts,
    option_map targets (sentiment (features req)) = Some (Some ts) /\
    length ts = Datatypes.S (count_char "." txt) /\
    Forall (fun t => ~ has_char "." t) ts /\
    str_join "." ts = txt.
Proof.
  intros Hin. apply analysis_request in Hin as [-> _].
  exists (str_split "." txt). simpl. repeat split.
  - apply length_str_split.
  - apply str_split_pieces.
  - apply (str_join_split "." txt).
Qed.

(** X14.  Every analysis request carries the text the method was given,
    unchanged, asks for exactly one feature, the one the method is named
    after, with the options the method gives it, and goes to a service
    whose URL is the configured NLP_BASE_URL without its trailing
    slashes; a transcription sends no analysis request. *)
Theorem analysis_asks_one_feature (op : operation) (st : St) service req :
  In (EvAnalyze service req) (operation_log op st) ->
  text req = argument_of op /\
  feature_count (features req) = 1%nat /\
  (exists key tok w1 url,
     decouple_config "NLP_KEY" (fst st) = Ret key /\
     iam_get_token key (fst st) = (Ret tok, w1) /\
     decouple_config "NLP_BASE_URL" w1 = Ret url /\
     has_bad_first_or_last_char url = false /\
     nlu_service_url service = Some (rstrip "/" url)) /\
  match op with
  | concept _ => concepts (features req) = Some {| limit := Some 3 |}
  | emotion_of _ =>
      emotion (features req)
      = Some {| emotion_document := None; emotion_targets := None |}
  | semantic_roles_of _ =>
      semantic_roles (features req) = Some {| semantic_roles_limit := None |}
  | sentiment_of t =>
      sentiment (features req)
      = Some {| document := Some false; targets := Some (str_split "." t) |}
  | tone _ =>
      classifications (features req)
      = Some {| model := Some "tone-classifications-en-v1" |}
  | speech_to_text _ => False
  end.
Proof.
  intros Hin. destruct op as [t|t|t|t|t|p]; simpl in Hin.
  6:{ destruct (speech_to_text_run p st)
        as [(_ & Hno & _)|(key & tok & w1 & file & url & r & _ & _ & Hl & _)].
      - specialize (Hno _ Hin). discriminate.
      - rewrite Hl in Hin. simpl in Hin.
        destruct Hin as [|[|[|[|[|[]]]]]]; discriminate. }
  all: match type of Hin with
       | In _ (log_of ?m ?s) =>
           match eval unfold get_text_concept, get_text_emotion,
                   get_text_semantic_roles, get_text_sentiment, get_text_tone in m with
           | bind _ (fun service => bind (analyze service ?q) _) =>
               destruct (analysis_log "2022-04-07" q s)
                 as [Hno|(key & tok & w1 & url & Hk & Ht & Hu & Hok & Hl)]
           end
       end.
  all: try (specialize (Hno _ Hin); discriminate).
  all: unfold get_text_concept, get_text_emotion, get_text_semantic_roles,
         get_text_sentiment, get_text_tone in Hin;
       rewrite Hl in Hin; simpl in Hin;
       destruct Hin as [|[|[|[[= <- <-]|[]]]]]; try discriminate;
       simpl; repeat split; try reflexivity;
       exists key, tok, w1, url; auto.
Qed.
End Run.

Lemma get_natural_language_service_runs_witness :
  get_natural_language_service "2022-04-07"
    (Replay.st (Replay.with_env Replay.slashed_env Replay.fine))
  = (Ret {| version := "2022-04-07";
            nlu_authenticator := Some {| bearer_token := "t1" |};
            nlu_service_url := Some "https://nlu.example" |},
     (Replay.with_env Replay.slashed_env Replay.fine,
      {| authenticator := Some {| bearer_token := "t1" |}; token := Some "t1" |}),
     [EvConfig "NLP_KEY"; EvGetToken "k-nlp" (Ret "t1"); EvConfig "NLP_BASE_URL"]) /\
  get_natural_language_service "2022-04-07"
    (Replay.st (Replay.with_env Replay.quoted_env Replay.fine))
  = (Raise service_url_error,
     (Replay.with_env Replay.quoted_env Replay.fine,
      {| authenticator := Some {| bearer_token := "t1" |}; token := Some "t1" |}),
     [EvConfig "NLP_KEY"; EvGetToken "k-nlp" (Ret "t1"); EvConfig "NLP_BASE_URL"]) /\
  get_natural_language_service "2022-04-07" (Replay.st (Replay.without "NLP_BASE_URL"))
  = (Raise (UndefinedValueError "NLP_BASE_URL"),
     (Replay.without "NLP_BASE_URL",
      {| authenticator := Some {| bearer_token := "t1" |}; token := Some "t1" |}),
     [EvConfig "NLP_KEY"; EvGetToken "k-nlp" (Ret "t1"); EvConfig "NLP_BASE_URL"]).
Proof.
  split; [|split].
  - apply (get_natural_language_service_runs "2022-04-07"
             (Replay.with_env Replay.slashed_env Replay.fine)
             (Replay.with_env Replay.slashed_env Replay.fine)
             Scripted.used_self "k-nlp" "t1" (Ret "https://nlu.example//"));
      reflexivity.
  - apply (get_natural_language_service_runs "2022-04-07"
             (Replay.with_env Replay.quoted_env Replay.fine)
             (Replay.with_env Replay.quoted_env Replay.fine)
             Scripted.used_self "k-nlp" "t1"
             (Ret (double_quote +:+ "https://nlu.example" +:+ double_quote)));
      reflexivity.
  - apply (get_natural_language_service_runs "2022-04-07"
             (Replay.without "NLP_BASE_URL") (Replay.without "NLP_BASE_URL")
             Scripted.used_self "k-nlp" "t1"
             (Raise (UndefinedValueError "NLP_BASE_URL"))); reflexivity.
Defined.

Lemma get_text_to_speech_service_runs_witness :
  get_text_to_speech_service (Replay.st (Replay.with_env Replay.slashed_env Replay.fine))
  = (Ret {| tts_authenticator := Some {| bearer_token := "t1" |};
            tts_service_url := Some "https://tts.example" |},
     (Replay.with_env Replay.slashed_env Replay.fine,
      {| authenticator := Some {| bearer_token := "t1" |}; token := Some "t1" |}),
     [EvConfig "TTS_API_KE"; EvGetToken "k-tts" (Ret "t1"); EvConfig "TTS_BASE_URL"]).
Proof.
  apply (get_text_to_speech_service_runs
           (Replay.with_env Replay.slashed_env Replay.fine)
           (Replay.with_env Replay.slashed_env Replay.fine) Scripted.used_self
           "k-tts" "t1" (Ret "https://tts.example/")); reflexivity.
Defined.

Lemma analysis_method_runs_witness :
  exists req,
    text req = "Hello" /\
    forall r w2,
      nlu_analyze {| version := "2022-04-07";
                     nlu_authenticator := Some {| bearer_token := "t1" |};
                     nlu_service_url := Some (rstrip "/" "https://nlu.example//") |}
                  req (Replay.with_env Replay.slashed_env Replay.fine)
      = (r, w2) ->
      get_text_emotion "Hello" (Replay.st (Replay.with_env Replay.slashed_env Replay.fine))
      = (match r with
         | Ret answer => Ret (json_dumps answer)
         | Raise e => Raise e
         end,
         (w2, {| authenticator := Some {| bearer_token := "t1" |}; token := Some "t1" |}),
         [EvConfig "NLP_KEY"; EvGetToken "k-nlp" (Ret "t1"); EvConfig "NLP_BASE_URL";
          EvAnalyze {| version := "2022-04-07";
                       nlu_authenticator := Some {| bearer_token := "t1" |};
                       nlu_service_url := Some (rstrip "/" "https://nlu.example//") |}
                    req]).
Proof.
  apply (analysis_method_runs get_text_emotion is_get_text_emotion "Hello"
           (Replay.with_env Replay.slashed_env Replay.fine)
           (Replay.with_env Replay.slashed_env Replay.fine)
           Scripted.used_self "k-nlp" "t1" "https://nlu.example//"); reflexivity.
Defined.

(** In the replaying world the analysis answers the string done, and the
    method returns it as JSON text, quotes included. *)
Example get_text_emotion_returns_json_text :
  result_of (get_text_emotion "Hello") (Replay.st Replay.fine)
  = Ret (double_quote +:+ "done" +:+ double_quote).
Proof. reflexivity. Qed.

Lemma get_speech_to_text_result_runs_witness :
  get_speech_to_text_result "a.mp3" (Replay.st Replay.fine)
  = (Ret (JString "hello"),
     (Replay.fine,
      {| authenticator := Some {| bearer_token := "t1" |}; token := Some "t1" |}),
     [EvConfig "STT_API_KEY"; EvGetToken "k-stt" (Ret "t1"); EvOpen "a.mp3" "rb";
      EvConfig "URL";
      EvPost "https://stt.example/recognize" (stt_headers "t1") "ID3"
             (Ret (Replay.ok_response 200))]).
Proof.
  apply (get_speech_to_text_result_runs "a.mp3" Replay.fine Replay.fine Replay.fine
           Replay.fine Scripted.used_self "k-stt" "t1" "ID3"
           "https://stt.example/recognize" (Ret (Replay.ok_response 200)));
    reflexivity.
Defined.

Lemma get_speech_to_text_result_no_file_witness :
  get_speech_to_text_result "a.mp3" (Replay.st Replay.no_file)
  = (Raise (OSError "a.mp3"),
     (Replay.no_file,
      {| authenticator := Some {| bearer_token := "t1" |}; token := Some "t1" |}),
     [EvConfig "STT_API_KEY"; EvGetToken "k-stt" (Ret "t1"); EvOpen "a.mp3" "rb"]).
Proof.
  apply (get_speech_to_text_result_no_file "a.mp3" Replay.no_file Replay.no_file
           Replay.no_file Scripted.used_self "k-stt" "t1" (OSError "a.mp3"));
    reflexivity.
Defined.

Lemma get_text_sentiment_targets_rebuild_witness :
  exists ts,
    option_map targets
      (sentiment (features (Scripted.sentiment_request "I am. You are."
                              ["I am"; " You are"; EmptyString])))
    = Some (Some ts) /\
    length ts = Datatypes.S (count_char "." "I am. You are.") /\
    Forall (fun t => ~ has_char "." t) ts /\
    str_join "." ts = "I am. You are.".
Proof.
  apply (get_text_sentiment_targets_rebuild "I am. You are." (Scripted.st0 200)
           Scripted.nlu_service).
  vm_compute. auto 10.
Defined.

Lemma analysis_asks_one_feature_witness :
  (text (Scripted.concept_request "Hello") = argument_of (concept "Hello") /\
   feature_count (features (Scripted.concept_request "Hello")) = 1%nat /\
   (exists key tok w1 url,
      decouple_config "NLP_KEY" (fst (Scripted.st0 200)) = Ret key /\
      iam_get_token key (fst (Scripted.st0 200)) = (Ret tok, w1) /\
      decouple_config "NLP_BASE_URL" w1 = Ret url /\
      has_bad_first_or_last_char url = false /\
      nlu_service_url Scripted.nlu_service = Some (rstrip "/" url)) /\
   concepts (features (Scripted.concept_request "Hello")) = Some {| limit := Some 3 |}) /\
  (text (Scripted.emotion_request "Hello") = argument_of (emotion_of "Hello") /\
   feature_count (features (Scripted.emotion_request "Hello")) = 1%nat /\
   (exists key tok w1 url,
      decouple_config "NLP_KEY" (fst (Scripted.st0 200)) = Ret key /\
      iam_get_token key (fst (Scripted.st0 200)) = (Ret tok, w1) /\
      decouple_config "NLP_BASE_URL" w1 = Ret url /\
      has_bad_first_or_last_char url = false /\
      nlu_service_url Scripted.nlu_service = Some (rstrip "/" url)) /\
   emotion (features (Scripted.emotion_request "Hello"))
   = Some {| emotion_document := None; emotion_targets := None |}) /\
  (text (Scripted.semantic_roles_request "Hello")
   = argument_of (semantic_roles_of "Hello") /\
   feature_count (features (Scripted.semantic_roles_request "Hello")) = 1%nat /\
   (exists key tok w1 url,
      decouple_config "NLP_KEY" (fst (Scripted.st0 200)) = Ret key /\
      iam_get_token key (fst (Scripted.st0 200)) = (Ret tok, w1) /\
      decouple_config "NLP_BASE_URL" w1 = Ret url /\
      has_bad_first_or_last_char url = false /\
      nlu_service_url Scripted.nlu_service = Some (rstrip "/" url)) /\
   semantic_roles (features (Scripted.semantic_roles_request "Hello"))
   = Some {| semantic_roles_limit := None |}) /\
  (text (Scripted.sentiment_request "a.b" ["a"; "b"]) = argument_of (sentiment_of "a.b") /\
   feature_count (features (Scripted.sentiment_request "a.b" ["a"; "b"])) = 1%nat /\
   (exists key tok w1 url,
      decouple_config "NLP_KEY" (fst (Scripted.st0 200)) = Ret key /\
      iam_get_token key (fst (Scripted.st0 200)) = (Ret tok, w1) /\
      decouple_config "NLP_BASE_URL" w1 = Ret url /\
      has_bad_first_or_last_char url = false /\
      nlu_service_url Scripted.nlu_service = Some (rstrip "/" url)) /\
   sentiment (features (Scripted.sentiment_request "a.b" ["a"; "b"]))
   = Some {| document := Some false; targets := Some (str_split "." "a.b") |}) /\
  (text (Scripted.tone_request "Hello") = argument_of (tone "Hello") /\
   feature_count (features (Scripted.tone_request "Hello")) = 1%nat /\
   (exists key tok w1 url,
      decouple_config "NLP_KEY" (fst (Scripted.st0 200)) = Ret key /\
      iam_get_token key (fst (Scripted.st0 200)) = (Ret tok, w1) /\
      decouple_config "NLP_BASE_URL" w1 = Ret url /\
      has_bad_first_or_last_char url = false /\
      nlu_service_url Scripted.nlu_service = Some (rstrip "/" url)) /\
   classifications (features (Scripted.tone_request "Hello"))
   = Some {| model := Some "tone-classifications-en-v1" |}).
Proof.
  split; [|split; [|split; [|split]]].
  - apply (analysis_asks_one_feature (concept "Hello") (Scripted.st0 200)).
    vm_compute. auto 10.
  - apply (analysis_asks_one_feature (emotion_of "Hello") (Scripted.st0 200)).
    vm_compute. auto 10.
  - apply (analysis_asks_one_feature (semantic_roles_of "Hello") (Scripted.st0 200)).
    vm_compute. auto 10.
  - apply (analysis_asks_one_feature (sentiment_of "a.b") (Scripted.st0 200)).
    vm_compute. auto 10.
  - apply (analysis_asks_one_feature (tone "Hello") (Scripted.st0 200)).
    vm_compute. auto 10.
Defined.

End WatsonMore.

(** * The program: further properties *)

Module ProgramMore.
Import TextToSpeech IbmTextAnalysis Program Runs WatsonFacts.

(** Splits a statement about the run of any entry into the ways the run
    can go. *)
Ltac every_run g e st :=
  let w := fresh "w" in
  let self := fresh "self" in
  destruct st as [w self];
  destruct e as [? ?| | | | | | | | |];
  [ unfold run_log, run_raised, run_state, log_of, result_of, state_after,
      create_speech_from_text, load_global;
    simpl fst; simpl snd;
    destruct (g !! "speechsdk") as [?|];
    [ destruct (g !! "config") as [[| |]|] | ];
    unfold call1, config, mk_SpeechConfig, mk_AudioOutputConfig,
      mk_SpeechSynthesizer, speak_ssml;
    unfold bind, vendor_read, vendor_call, ret, raise; simpl;
    repeat ProgramFacts.next_speech_call
  | unfold run_log, run_raised, run_state, log_of, result_of, state_after;
    unfold_methods; all_calls;
    repeat match goal with
           | |- context [status_code ?r =? 200] =>
               destruct (status_code r =? 200); simpl
           | |- context [response_json ?r] => destruct (response_json r); simpl
           end .. ].

Section Run.
Context {W : Type} `{V : Vendor W}.

(** X15.  The two adapters never cross: a synthesis never calls IAM,
    Watson, [open] or [requests], and no method of [IBM_Watson] calls the
    speech SDK. *)
Theorem vendors_kept_apart g (e : entry) (st : W * IBM_Watson) :
  Forall (fun x => if is_speech_entry e then is_watson_call x = false
                   else is_sdk_call x = false)
         (run_log g e st).
Proof. every_run g e st; repeat constructor. Qed.

(** X16.  Nothing is tried twice: one call of any function asks IAM for
    at most one token, sends at most one request to a Watson service and
    speaks at most once. *)
Theorem nothing_is_retried g (e : entry) (st : W * IBM_Watson) :
  (length (get_tokens (run_log g e st)) <= 1)%nat /\
  (length (List.filter is_vendor_request (run_log g e st)) <= 1)%nat /\
  (length (spoken (run_log g e st)) <= 1)%nat.
Proof. every_run g e st; simpl; lia. Qed.

(** A new object has neither token nor authenticator. *)
Lemma init_is_consistent : consistent init.
Proof. reflexivity. Qed.

(** X17.  An object whose authenticator was made from its token (or that
    has neither, as after [__init__]) is so again after any call, however
    the call ends. *)
Theorem object_stays_consistent g (e : entry) (st : W * IBM_Watson) :
  consistent (snd st) -> consistent (snd (run_state g e st)).
Proof. every_run g e st; simpl; intros Hc; solve [exact Hc | reflexivity]. Qed.

(** X18.  A call changes the object exactly when IAM issues it a token,
    and then the object holds that token and its authenticator; a call
    that gets no token leaves the object as it was, also when it
    raises. *)
Theorem object_changes_with_token g (e : entry) (st : W * IBM_Watson) :
  match last (get_tokens (run_log g e st)) with
  | Some (_, Ret tok) =>
      snd (run_state g e st)
      = {| authenticator := Some {| bearer_token := tok |}; token := Some tok |}
  | _ => snd (run_state g e st) = snd st
  end.
Proof. every_run g e st; reflexivity. Qed.

(** X19.  If the first configuration key a method of [IBM_Watson] needs
    is missing, the method raises what the lookup raised and has done
    nothing else: no token is requested, nothing is sent, and world and
    object are as before. *)
Theorem missing_key_stops_the_call g (e : entry) (st : W * IBM_Watson) name ex :
  is_speech_entry e = false ->
  first_key e = Some name ->
  decouple_config name (fst st) = Raise ex ->
  run_log g e st = [EvConfig name] /\
  run_raised g e st = Some ex /\
  run_state g e st = st.
Proof.
  destruct st as [w self]. simpl fst.
  destruct e; simpl; intros Hs [= <-] Hmiss; try discriminate Hs;
    unfold log_of, result_of, state_after; unfold_methods; rewrite Hmiss; auto.
Qed.

(** X20.  If IAM refuses the API key, the method raises IAM's error,
    sends no request to any service and leaves the object with whatever
    token it held before. *)
Theorem refused_key_stops_the_call g (e : entry) (st : W * IBM_Watson) key ex w1 :
  is_speech_entry e = false ->
  match e with
  | call_authenticate k => k = key
  | _ => exists name, first_key e = Some name /\
                      decouple_config name (fst st) = Ret key
  end ->
  iam_get_token key (fst st) = (Raise ex, w1) ->
  run_raised g e st = Some ex /\
  run_state g e st = (w1, snd st) /\
  get_tokens (run_log g e st) = [(key, Raise ex)] /\
  List.filter is_vendor_request (run_log g e st) = [].
Proof.
  destruct st as [w self]. simpl fst. simpl snd.
  destruct e; simpl; intros Hs Hkey Hiam; try discriminate Hs;
    try (destruct Hkey as (name & [= <-] & Hkey));
    try subst;
    unfold log_of, result_of, state_after; unfold_methods;
    try rewrite Hkey; simpl; rewrite Hiam; auto.
Qed.
End Run.

Lemma object_stays_consistent_witness :
  consistent (snd (run_state module_globals (call_get_text_tone "Hello")
                             (Replay.st Replay.fine))).
Proof.
  apply (object_stays_consistent module_globals (call_get_text_tone "Hello")
           (Replay.st Replay.fine)).
  reflexivity.
Defined.

Lemma missing_key_stops_the_call_witness :
  run_log module_globals call_get_text_to_speech_service
          (Replay.st (Replay.without "TTS_API_KE"))
  = [EvConfig "TTS_API_KE"] /\
  run_raised module_globals call_get_text_to_speech_service
             (Replay.st (Replay.without "TTS_API_KE"))
  = Some (UndefinedValueError "TTS_API_KE") /\
  run_state module_globals call_get_text_to_speech_service
            (Replay.st (Replay.without "TTS_API_KE"))
  = Replay.st (Replay.without "TTS_API_KE").
Proof.
  apply (missing_key_stops_the_call module_globals call_get_text_to_speech_service
           (Replay.st (Replay.without "TTS_API_KE")) "TTS_API_KE"
           (UndefinedValueError "TTS_API_KE")); reflexivity.
Defined.

Lemma refused_key_stops_the_call_witness :
  run_raised module_globals (call_get_speech_to_text_result "a.mp3")
             (Replay.st Replay.iam_down)
  = Some (VendorError "401") /\
  run_state module_globals (call_get_speech_to_text_result "a.mp3")
            (Replay.st Replay.iam_down)
  = (Replay.iam_down, snd (Replay.st Replay.iam_down)) /\
  get_tokens (run_log module_globals (call_get_speech_to_text_result "a.mp3")
                      (Replay.st Replay.iam_down))
  = [("k-stt", Raise (VendorError "401"))] /\
  List.filter is_vendor_request
              (run_log module_globals (call_get_speech_to_text_result "a.mp3")
                       (Replay.st Replay.iam_down))
  = [].
Proof.
  apply (refused_key_stops_the_call module_globals
           (call_get_speech_to_text_result "a.mp3") (Replay.st Replay.iam_down)
           "k-stt" (VendorError "401") Replay.iam_down).
  - reflexivity.
  - exists "STT_API_KEY". split; reflexivity.
  - reflexivity.
Defined.

End ProgramMore.
